(** * CO2Logger: the reading pipeline of [CO2LoggerReading.py]

    A shallow embedding of the functions of [CO2LoggerReading.py]
    (coordinate conversion, time formatting, dataset assembly, the chart
    and KML colour paths) and the properties of its specification.

    Numbers.  A Python [float] (and a pandas [int64] or [float64] cell) is
    modelled by [num]: an exact rational, or one of the three IEEE special
    values.  Rounding to binary64 is abstracted; signed zeros are not
    distinguished.  Exceptions are modelled by the [result] monad. *)

From Stdlib Require Import ZArith QArith Qround Qcanon Lia Lqa.
From Stdlib Require Import List String Ascii Bool DecimalString.
Import ListNotations.

Open Scope Z_scope.

(** ** Exceptions *)

Inductive exn : Type :=
| ValueError
| OverflowError
| ZeroDivisionError
| TypeError
| IndexError
| CRSError.

Inductive result (A : Type) : Type :=
| Ok (a : A)
| Err (e : exn).

Arguments Ok {A} a.
Arguments Err {A} e.

Definition bind {A B : Type} (m : result A) (k : A -> result B) : result B :=
  match m with
  | Ok a => k a
  | Err e => Err e
  end.

Notation "x <- m ;; k" := (bind m (fun x => k))
  (at level 61, m at next level, right associativity).
Notation "' p <- m ;; k" := (bind m (fun x => match x with p => k end))
  (at level 61, p pattern, m at next level, right associativity).

(** [mapM f l]: apply [f] to the elements of [l] from left to right; the
    first exception ends the traversal (a Python loop, [Series.apply]). *)
Fixpoint mapM {A B : Type} (f : A -> result B) (l : list A) : result (list B) :=
  match l with
  | [] => Ok []
  | a :: l' => b <- f a ;; bs <- mapM f l' ;; Ok (b :: bs)
  end.

(** ** Numbers *)

Inductive num : Type :=
| Fin (q : Qc)
| PInf
| NInf
| NaN.

Definition Z2Qc (z : Z) : Qc := Q2Qc (inject_Z z).

Definition of_int (z : Z) : num := Fin (Z2Qc z).

Definition Qcfloor (q : Qc) : Z := Qfloor q.

(** Truncation toward zero, as [int(x)] does on a finite float. *)
Definition Qctrunc (q : Qc) : Z := Z.quot (Qnum q) (Zpos (Qden q)).

Definition Qc_is_zero (q : Qc) : bool := Qnum q =? 0.
Definition Qc_is_neg (q : Qc) : bool := Qnum q <? 0.
Definition Qc_is_pos (q : Qc) : bool := 0 <? Qnum q.

Definition is_zero (x : num) : bool :=
  match x with Fin q => Qc_is_zero q | _ => false end.

Definition num_opp (x : num) : num :=
  match x with
  | Fin q => Fin (- q)%Qc
  | PInf => NInf
  | NInf => PInf
  | NaN => NaN
  end.

Definition num_add (x y : num) : num :=
  match x, y with
  | NaN, _ | _, NaN => NaN
  | Fin a, Fin b => Fin (a + b)%Qc
  | PInf, NInf | NInf, PInf => NaN
  | PInf, _ | _, PInf => PInf
  | NInf, _ | _, NInf => NInf
  end.

Definition num_sub (x y : num) : num := num_add x (num_opp y).

(** IEEE division as numpy performs it on [float64] and [int64] scalars:
    no exception, [0/0] is NaN, [x/0] is an infinity. *)
Definition np_truediv (x y : num) : num :=
  match x, y with
  | NaN, _ | _, NaN => NaN
  | Fin a, Fin b =>
      if Qc_is_zero b then
        if Qc_is_zero a then NaN else if Qc_is_neg a then NInf else PInf
      else Fin (a / b)%Qc
  | Fin _, PInf | Fin _, NInf => Fin 0%Qc
  | PInf, Fin b => if Qc_is_neg b then NInf else PInf
  | NInf, Fin b => if Qc_is_neg b then PInf else NInf
  | _, _ => NaN
  end.

(** Python's [x / y] on floats: [ZeroDivisionError] on a zero divisor. *)
Definition py_truediv (x y : num) : result num :=
  if is_zero y then Err ZeroDivisionError else Ok (np_truediv x y).

(** Python's [x % y] on floats ([float_divmod]): the result takes the sign
    of the divisor. *)
Definition py_mod (x y : num) : result num :=
  if is_zero y then Err ZeroDivisionError else
  Ok match x, y with
     | Fin a, Fin b => Fin (a - b * Z2Qc (Qcfloor (a / b)))%Qc
     | Fin a, PInf => if Qc_is_neg a then PInf else Fin a
     | Fin a, NInf => if Qc_is_pos a then NInf else Fin a
     | _, _ => NaN
     end.

(** Python's [x // y] on floats. *)
Definition py_floordiv (x y : num) : result num :=
  if is_zero y then Err ZeroDivisionError else
  Ok match x, y with
     | Fin a, Fin b => of_int (Qcfloor (a / b)%Qc)
     | Fin a, PInf => if Qc_is_neg a then of_int (-1) else of_int 0
     | Fin a, NInf => if Qc_is_pos a then of_int (-1) else of_int 0
     | _, _ => NaN
     end.

(** Python's [int(x)]: truncation toward zero; NaN and the infinities
    raise. *)
Definition py_int (x : num) : result Z :=
  match x with
  | Fin q => Ok (Qctrunc q)
  | NaN => Err ValueError
  | PInf | NInf => Err OverflowError
  end.

(** ** Auxiliary data preparation functions *)

(** [convert_ddmmss_to_dd(coord)] *)
Definition convert_ddmmss_to_dd (coord : num) : result num :=
  q <- py_floordiv coord (of_int 100) ;;
  degrees <- py_int q ;;
  decimal_minutes <- py_mod coord (of_int 100) ;;
  m <- py_truediv decimal_minutes (of_int 60) ;;
  Ok (num_add (of_int degrees) m).

(** *** Strings: [str], [zfill], slices *)

Open Scope string_scope.
Open Scope Z_scope.

(** [str(n)] for a Python [int]. *)
Definition py_str (n : Z) : string :=
  DecimalString.NilZero.string_of_int (Z.to_int n).

Fixpoint zeros (n : nat) : string :=
  match n with
  | O => ""
  | S n' => String "0" (zeros n')
  end.

(** [s.zfill(width)]: pad with zeros on the left up to [width]; a leading
    sign stays in front of the padding. *)
Definition zfill (width : nat) (s : string) : string :=
  let pad := zeros (width - String.length s) in
  match s with
  | String c s' =>
      if orb (Ascii.eqb c "-") (Ascii.eqb c "+")
      then String c (pad ++ s')
      else pad ++ s
  | EmptyString => pad
  end.

(** [s[a:b]] for literal bounds [0 <= a <= b]. *)
Definition slice (a b : nat) (s : string) : string := substring a (b - a) s.

(** [format_time_string(time_value)] *)
Definition format_time_string (time_value : num) : result string :=
  n <- py_int time_value ;;
  let time_str := zfill 6 (py_str n) in
  Ok (slice 0 2 time_str ++ ":" ++ slice 2 4 time_str ++ ":" ++ slice 4 6 time_str).

(** *** [datetime.strptime(s, '%H%M%S')]

    The format compiles to the regular expression
    [(2[0-3]|[0-1]\d|\d)([0-5]\d|\d)(6[0-1]|[0-5]\d|\d)], matched at the
    start of the string with backtracking; a match that leaves characters
    unread is an error, and so is a second field of 60 or 61, which the
    [datetime] constructor refuses.  The date is 1900-01-01 throughout. *)

Record datetime : Type := mk_datetime { hour : Z; minute : Z; second : Z }.

(** The value of a decimal digit, [None] for another character: the
    digits are the codes 0x30 to 0x39, low nibble first in [Ascii]. *)
Definition digit_val (c : ascii) : option Z :=
  match c with
  | Ascii b0 b1 b2 b3 true true false false =>
      let n := Z.b2z b0 + 2 * Z.b2z b1 + 4 * Z.b2z b2 + 8 * Z.b2z b3 in
      if n <=? 9 then Some n else None
  | _ => None
  end.

(** The matches of one field, in the order the alternatives are tried:
    two digits, when [ok2] accepts them, then a single digit. *)
Definition field_matches (ok2 : Z -> Z -> bool) (s : string) : list (Z * string) :=
  match s with
  | String c1 rest1 =>
      match digit_val c1 with
      | Some d1 =>
          let two :=
            match rest1 with
            | String c2 rest2 =>
                match digit_val c2 with
                | Some d2 => if ok2 d1 d2 then [(10 * d1 + d2, rest2)] else []
                | None => []
                end
            | EmptyString => []
            end in
          (two ++ [(d1, rest1)])%list
      | None => []
      end
  | EmptyString => []
  end.

Definition ok_H (d1 d2 : Z) : bool := orb (andb (d1 =? 2) (d2 <=? 3)) (d1 <=? 1).
Definition ok_M (d1 d2 : Z) : bool := d1 <=? 5.
Definition ok_S (d1 d2 : Z) : bool := orb (andb (d1 =? 6) (d2 <=? 1)) (d1 <=? 5).

(** First match of the three fields, in backtracking order. *)
Definition match_HMS (s : string) : option (Z * Z * Z * string) :=
  hd_error
    (flat_map (fun '(h, s1) =>
       flat_map (fun '(m, s2) =>
         map (fun '(sec, s3) => (h, m, sec, s3)) (field_matches ok_S s2))
         (field_matches ok_M s1))
       (field_matches ok_H s)).

Definition strptime_HMS (s : string) : result datetime :=
  match match_HMS s with
  | None => Err ValueError
  | Some (h, m, sec, rest) =>
      match rest with
      | EmptyString =>
          if sec <=? 59 then Ok (mk_datetime h m sec) else Err ValueError
      | _ => Err ValueError
      end
  end.

(** [datetime.strptime(str(int(t)).zfill(6), '%H%M%S')], as the source
    writes it for the first row and for every row. *)
Definition parse_time (t : num) : result datetime :=
  n <- py_int t ;;
  strptime_HMS (zfill 6 (py_str n)).

(** [(a - b).total_seconds()] for two times of the same day. *)
Definition total_seconds (a b : datetime) : num :=
  of_int ((hour a * 3600 + minute a * 60 + second a)
          - (hour b * 3600 + minute b * 60 + second b)).

(** [calculate_relative_seconds(row, start_time)]; [time] is [row['Time']]. *)
Definition calculate_relative_seconds (time : num) (start_time : datetime) : result num :=
  current_time <- parse_time time ;;
  Ok (total_seconds current_time start_time).

(** ** The data frame

    [pd.read_csv] is the input boundary: the frame is the list of its rows,
    a column is the list of one field.  The time and coordinate columns are
    numeric; a measurement column holds text when the file has an entry
    that is not a number, which is why [draw_plots] coerces the three of
    them. *)

Inductive cell : Type :=
| Num (x : num)
| Text (s : string).

Record RawReading : Type := mk_raw {
  Time : num;
  Latitude : num;
  Longitude : num;
  CO2 : cell;
  Temperature : cell;
  Humidity : cell
}.

Record EnrichedReading : Type := mk_enriched {
  reading : RawReading;
  Latitude_DD : num;
  Longitude_DD : num;
  Easting_m : num;
  Northing_m : num;
  UTM_Zone : Z;
  Time_HHMMSS : string;
  Relative_Seconds : num
}.

Definition is_nan (x : num) : bool :=
  match x with NaN => true | _ => false end.

Definition num_ltb (x y : num) : bool :=
  match x, y with
  | NaN, _ | _, NaN => false
  | Fin a, Fin b => match (a ?= b)%Qc with Lt => true | _ => false end
  | NInf, NInf | PInf, _ | Fin _, NInf => false
  | NInf, _ | Fin _, PInf => true
  end.

Definition num_eqb (x y : num) : bool :=
  match x, y with
  | Fin a, Fin b => Qeq_bool a b
  | PInf, PInf | NInf, NInf => true
  | _, _ => false
  end.

Definition dropna (l : list num) : list num :=
  filter (fun x => negb (is_nan x)) l.

(** [Series.mean()], [Series.min()], [Series.max()] of a numeric column:
    missing values are skipped, and a column without values gives NaN. *)
Definition series_mean (l : list num) : num :=
  match dropna l with
  | [] => NaN
  | xs => np_truediv (fold_left num_add xs (of_int 0))
                     (of_int (Z.of_nat (List.length xs)))
  end.

Definition series_min (l : list num) : num :=
  match dropna l with
  | [] => NaN
  | x :: xs => fold_left (fun m y => if num_ltb y m then y else m) xs x
  end.

Definition series_max (l : list num) : num :=
  match dropna l with
  | [] => NaN
  | x :: xs => fold_left (fun m y => if num_ltb m y then y else m) xs x
  end.

(** Arithmetic on a measurement cell: text does not subtract or compare
    with a number. *)
Definition cell_num (c : cell) : result num :=
  match c with
  | Num x => Ok x
  | Text _ => Err TypeError
  end.

(** [Series.iloc[0]] *)
Definition iloc0 {A : Type} (l : list A) : result A :=
  match l with
  | a :: _ => Ok a
  | [] => Err IndexError
  end.

(** [utm_zone = int((mean_lon + 180) / 6) + 1] *)
Definition utm_zone_of (mean_lon : num) : result Z :=
  q <- py_truediv (num_add mean_lon (of_int 180)) (of_int 6) ;;
  z <- py_int q ;;
  Ok (z + 1).

(** Rows of the assembled frame, from its columns. *)
Fixpoint assemble (rows : list RawReading) (lat lon easting northing : list num)
    (zone : Z) (ts : list string) (rel : list num) : list EnrichedReading :=
  match rows, lat, lon, easting, northing, ts, rel with
  | r :: rows', la :: lat', lo :: lon', e :: east', n :: north',
    t :: ts', s :: rel' =>
      mk_enriched r la lo e n zone t s
        :: assemble rows' lat' lon' east' north' zone ts' rel'
  | _, _, _, _, _, _, _ => []
  end.

(** [pd.to_numeric(text, errors='coerce')] on one text cell.  Plain decimal
    literals are read (an optional sign, digits, an optional fraction) and
    any other text is coerced to NaN; the exponents, infinities and
    surrounding blanks that pandas reads as well are left out. *)
Fixpoint digits_value (acc : Z) (s : string) : option Z :=
  match s with
  | EmptyString => Some acc
  | String c s' =>
      match digit_val c with
      | Some d => digits_value (10 * acc + d) s'
      | None => None
      end
  end.

Fixpoint split_dot (s : string) : string * option string :=
  match s with
  | EmptyString => (EmptyString, None)
  | String c s' =>
      if Ascii.eqb c "." then (EmptyString, Some s')
      else let '(a, b) := split_dot s' in (String c a, b)
  end.

Definition to_numeric_text (s : string) : num :=
  let '(neg, body) :=
    match s with
    | String c s' =>
        if Ascii.eqb c "-" then (true, s')
        else if Ascii.eqb c "+" then (false, s') else (false, s)
    | EmptyString => (false, s)
    end in
  let '(ip, fp) := split_dot body in
  let fr := match fp with Some f => f | None => EmptyString end in
  match ip ++ fr with
  | EmptyString => NaN
  | ds =>
      match digits_value 0 ds with
      | Some n =>
          let q := (Z2Qc n / Z2Qc (10 ^ Z.of_nat (String.length fr)))%Qc in
          Fin (if neg then (- q)%Qc else q)
      | None => NaN
      end
  end.

Definition to_numeric (c : cell) : cell :=
  match c with
  | Num x => Num x
  | Text s => Num (to_numeric_text s)
  end.

(** ** Colours *)

(** An RGBA colour of matplotlib: four floats in [[0, 1]]. *)
Definition rgba : Type := (Qc * Qc * Qc * Qc)%type.

(** [simplekml.Color.rgb(r, g, b, a)] *)
Inductive kml_color : Type :=
| Color_rgb (r g b a : Z).

(** [int(c * 255)] on each channel, then [simplekml.Color.rgb]. *)
Definition to_kml_color (c : rgba) : kml_color :=
  let '(r, g, b, a) := c in
  Color_rgb (Qctrunc (r * Z2Qc 255)) (Qctrunc (g * Z2Qc 255))
            (Qctrunc (b * Z2Qc 255)) (Qctrunc (a * Z2Qc 255)).

(** [plt.Normalize(vmin, vmax)(value)]: linear in [value]; equal bounds
    give 0 for every value; a missing value stays missing. *)
Definition Normalize (vmin vmax value : num) : result num :=
  if is_nan value then Ok NaN
  else if num_eqb vmin vmax then Ok (of_int 0)
  else if num_ltb vmax vmin then Err ValueError
  else Ok (np_truediv (num_sub value vmin) (num_sub vmax vmin)).

(** The local [normalized_value] of [get_kml_color]. *)
Definition normalized_value (min_co2 max_co2 co2_value : num) : num :=
  np_truediv (num_sub co2_value min_co2) (num_sub max_co2 min_co2).

(** ** The pipeline

    Two library objects are parameters of the development: the coordinate
    transformer that [pyproj] builds for an EPSG code ([None] when the code
    names no reference system), as a function of longitude and latitude,
    and the colour map that [cm.get_cmap('RdYlGn_r')] returns. *)

Section Pipeline.

Variable transformer : string -> option (num -> num -> num * num).
Variable cmap : num -> rgba.

Definition Transformer_from_crs (epsg : string)
    : result (num -> num -> num * num) :=
  match transformer epsg with
  | Some f => Ok f
  | None => Err CRSError
  end.

(** [load_and_prepare_data], from the parsed rows on. *)
Definition load_and_prepare_data (rows : list RawReading)
    : result (list EnrichedReading) :=
  (* 1. Lat/Lon conversion *)
  lat_dd <- mapM convert_ddmmss_to_dd (map Latitude rows) ;;
  lon_dd <- mapM convert_ddmmss_to_dd (map Longitude rows) ;;
  (* 2. UTM conversion *)
  let mean_lon := series_mean lon_dd in
  utm_zone <- utm_zone_of mean_lon ;;
  transform <- Transformer_from_crs ("326" ++ py_str utm_zone) ;;
  let en := map (fun '(lo, la) => transform lo la) (combine lon_dd lat_dd) in
  let easting := map fst en in
  let northing := map snd en in
  (* 3. Time preparation *)
  time_hhmmss <- mapM format_time_string (map Time rows) ;;
  t0 <- iloc0 (map Time rows) ;;
  start_time <- parse_time t0 ;;
  rel <- mapM (fun r => calculate_relative_seconds (Time r) start_time) rows ;;
  Ok (assemble rows lat_dd lon_dd easting northing utm_zone time_hhmmss rel).

(** *** The chart *)

Record Chart : Type := mk_chart {
  xticks : list nat;
  xticklabels : list string;
  scatter_xy : list (num * num);
  scatter_colors : list rgba;
  title_zone : Z
}.

(** [l[::step]] *)
Fixpoint every_nth_from {A : Type} (skip step : nat) (l : list A) : list A :=
  match l with
  | [] => []
  | a :: l' =>
      match skip with
      | O => a :: every_nth_from (step - 1) step l'
      | S k => every_nth_from k step l'
      end
  end.

Definition stride {A : Type} (step : nat) (l : list A) : list A :=
  every_nth_from 0 step l.

Definition set_measurements (f : cell -> cell) (e : EnrichedReading)
    : EnrichedReading :=
  let r := reading e in
  mk_enriched
    (mk_raw (Time r) (Latitude r) (Longitude r)
            (f (CO2 r)) (f (Temperature r)) (f (Humidity r)))
    (Latitude_DD e) (Longitude_DD e) (Easting_m e) (Northing_m e)
    (UTM_Zone e) (Time_HHMMSS e) (Relative_Seconds e).

Definition co2_column (df : list EnrichedReading) : result (list num) :=
  mapM (fun e => cell_num (CO2 (reading e))) df.

(** The colour the trajectory plot gives a CO2 value. *)
Definition chart_color (min_co2 max_co2 v : num) : result rgba :=
  t <- Normalize min_co2 max_co2 v ;;
  Ok (cmap t).

(** [draw_plots(df)]: the frame as the function leaves it, and the chart. *)
Definition draw_plots (df : list EnrichedReading)
    : result (list EnrichedReading * Chart) :=
  let df := map (set_measurements to_numeric) df in
  let n_points := List.length df in
  let step := Nat.max 1 (n_points / 15) in
  co2 <- co2_column df ;;
  let min_co2 := series_min co2 in
  let max_co2 := series_max co2 in
  colors <- mapM (chart_color min_co2 max_co2) co2 ;;
  utm_zone <- iloc0 (map UTM_Zone df) ;;
  Ok (df,
      mk_chart (stride step (seq 0 n_points))
               (stride step (map Time_HHMMSS df))
               (map (fun e => (Easting_m e, Northing_m e)) df)
               colors utm_zone).


(** *** The KML document *)

Record Placemark : Type := mk_placemark {
  pnt_co2 : num;
  pnt_coords : num * num;
  pnt_time : string;
  iconstyle_color : kml_color
}.

Record Kml : Type := mk_kml {
  linestring_coords : list (num * num);
  points : list Placemark
}.

(** [get_kml_color(co2_value)], closed over [min_co2] and [max_co2]. *)
Definition get_kml_color (min_co2 max_co2 co2_value : num) : kml_color :=
  to_kml_color (cmap (normalized_value min_co2 max_co2 co2_value)).

(** [generate_kml_trajectory(df, kml_file_name)]: the document saved.  A
    text cell in the CO2 column ends the function with [TypeError], at
    [min()] or at the first subtraction. *)
Definition generate_kml_trajectory (df : list EnrichedReading) : result Kml :=
  co2 <- co2_column df ;;
  let min_co2 := series_min co2 in
  let max_co2 := series_max co2 in
  let trajectory_coords := map (fun e => (Longitude_DD e, Latitude_DD e)) df in
  pts <- mapM (fun e =>
           co2_val <- cell_num (CO2 (reading e)) ;;
           Ok (mk_placemark co2_val (Longitude_DD e, Latitude_DD e)
                            (Time_HHMMSS e)
                            (get_kml_color min_co2 max_co2 co2_val))) df ;;
  Ok (mk_kml trajectory_coords pts).


End Pipeline.

(** What [convert_ddmmss_to_dd] computes on a finite input. *)
Definition dd_formula (q : Qc) : Qc :=
  (Z2Qc (Qcfloor (q / Z2Qc 100))
   + (q - Z2Qc 100 * Z2Qc (Qcfloor (q / Z2Qc 100))) / Z2Qc 60)%Qc.

(** A packed time [HHMMSS] that names a time of day. *)
Definition valid_hhmmss (t : Z) : Prop :=
  0 <= t /\ t / 10000 <= 23 /\ (t / 100) mod 100 <= 59 /\ t mod 100 <= 59.

Definition seconds_of_day (t : Z) : Z :=
  (t / 10000) * 3600 + ((t / 100) mod 100) * 60 + t mod 100.

(** The integers from 0 up to [n - 1], and the check that one time of day
    is parsed to its three fields. *)
Definition range (n : nat) : list Z := map Z.of_nat (seq 0 n).

Definition parse_check (h m s : Z) : bool :=
  match strptime_HMS (zfill 6 (py_str (h * 10000 + m * 100 + s))) with
  | Ok d => (hour d =? h) && (minute d =? m) && (second d =? s)
  | Err _ => false
  end.

(** The three rows of the end-to-end example. *)
Definition ex_rows : list RawReading :=
  [ mk_raw (of_int 100000) (Fin (Q2Qc 4530.0000)) (Fin (Q2Qc 1200.0000))
           (Num (of_int 400)) (Num (of_int 20)) (Num (of_int 50));
    mk_raw (of_int 100100) (Fin (Q2Qc 4530.1000)) (Fin (Q2Qc 1200.1000))
           (Num (of_int 800)) (Num (of_int 21)) (Num (of_int 51));
    mk_raw (of_int 100200) (Fin (Q2Qc 4530.2000)) (Fin (Q2Qc 1200.2000))
           (Num (of_int 1200)) (Num (of_int 22)) (Num (of_int 52)) ].

(** ** Stand-ins for the two library objects

    The closed examples below need one transformer and one colour map.
    [plate_carree] returns longitude and latitude unchanged for every EPSG
    code.  [ramp3] is the three-anchor ramp of the specification: green at
    0, yellow at 0.5, red at 1, linear in between; a value out of range
    takes the colour of the nearer end and NaN the transparent colour that
    matplotlib gives a missing value. *)

Definition plate_carree (epsg : string) : option (num -> num -> num * num) :=
  Some (fun lon lat => (lon, lat)).

Definition byte_color (r g b : Z) : rgba :=
  ((Z2Qc r / Z2Qc 255)%Qc, (Z2Qc g / Z2Qc 255)%Qc, (Z2Qc b / Z2Qc 255)%Qc, 1%Qc).

Definition lerp (c1 c2 : rgba) (t : Qc) : rgba :=
  let '(r1, g1, b1, a1) := c1 in
  let '(r2, g2, b2, a2) := c2 in
  ((r1 + (r2 - r1) * t)%Qc, (g1 + (g2 - g1) * t)%Qc,
   (b1 + (b2 - b1) * t)%Qc, (a1 + (a2 - a1) * t)%Qc).

Definition ramp3 (t : num) : rgba :=
  let green := byte_color 0 104 55 in
  let yellow := byte_color 255 255 191 in
  let red := byte_color 165 0 38 in
  match t with
  | NaN => (0%Qc, 0%Qc, 0%Qc, 0%Qc)
  | NInf => green
  | PInf => red
  | Fin q =>
      if Qc_is_neg q then green
      else if num_ltb (of_int 1) t then red
      else if num_ltb (Fin (Q2Qc 0.5)) t
           then lerp yellow red (Z2Qc 2 * q - 1)%Qc
           else lerp green yellow (Z2Qc 2 * q)%Qc
  end.

(** ** Failure of a row, in the specification's words

    The sub-steps 4.1 to 4.3 on one row, in that order, and the first row
    of a frame on which one of them fails, with its index. *)







Definition is_num (c : cell) : bool :=
  match c with Num _ => true | Text _ => false end.


(** The frame of the example, what [draw_plots] returns on it, and the
    document of the exporter. *)
Definition ex_df : list EnrichedReading :=
  match load_and_prepare_data plate_carree ex_rows with
  | Ok df => df
  | Err _ => []
  end.

Definition ex_drawn : list EnrichedReading * Chart :=
  match draw_plots ramp3 ex_df with
  | Ok p => p
  | Err _ => ([], mk_chart [] [] [] [] 0)
  end.

Definition ex_kml : Kml :=
  match generate_kml_trajectory ramp3 (fst ex_drawn) with
  | Ok k => k
  | Err _ => mk_kml [] []
  end.

(** ** Further definitions for the properties of the code *)

(** The display string that [format_time_string] builds from the padded
    digits, [f"{s[0:2]}:{s[2:4]}:{s[4:6]}"]. *)
Definition display (time_str : string) : string :=
  slice 0 2 time_str ++ ":" ++ slice 2 4 time_str ++ ":" ++ slice 4 6 time_str.

(** A number below 100 written with two decimal digits. *)
Definition digit_char (d : Z) : ascii := ascii_of_N (48 + Z.to_N d).

Definition two_digits (n : Z) : string :=
  String (digit_char (n / 10)) (String (digit_char (n mod 10)) EmptyString).

Definition display_check (h m s : Z) : bool :=
  String.eqb (display (zfill 6 (py_str (h * 10000 + m * 100 + s))))
             (two_digits h ++ ":" ++ two_digits m ++ ":" ++ two_digits s).

(** The second of the day that a parsed time names. *)
Definition second_of_day (d : datetime) : Z :=
  hour d * 3600 + minute d * 60 + second d.


(** The EPSG code the source builds for a zone, [f'326{utm_zone}']. *)
Definition epsg_code (zone : Z) : string := "326" ++ py_str zone.

Definition epsg_check (z : Z) : bool :=
  String.eqb (epsg_code z)
             (if z <? 10 then String "3" (String "2" (String "6"
                                (String (digit_char z) EmptyString)))
              else "326" ++ two_digits z).

(** [KML_FILE_NAME = FILE_NAME[:-3] + 'kml'], for any file name. *)
Definition kml_file_name (file_name : string) : string :=
  substring 0 (String.length file_name - 3) file_name ++ "kml".

Definition FILE_NAME : string := "170314_100443_M02.txt".
Definition KML_FILE_NAME : string := kml_file_name FILE_NAME.

(** A colour channel of matplotlib, a float between 0 and 1. *)
Definition unit_interval (x : Qc) : Prop := (0 <= x)%Qc /\ (x <= 1)%Qc.

(** * Properties *)

(** ** Basic facts on the number model *)

Lemma Qred_inject_Z (z : Z) : Qred (inject_Z z) = inject_Z z.
Proof. apply Qred_identity. simpl. apply Z.gcd_1_r. Qed.

Lemma this_Z2Qc (z : Z) : this (Z2Qc z) = inject_Z z.
Proof. unfold Z2Qc. simpl. apply Qred_inject_Z. Qed.

Lemma Qctrunc_Z2Qc (z : Z) : Qctrunc (Z2Qc z) = z.
Proof. unfold Qctrunc. rewrite this_Z2Qc. simpl. apply Z.quot_1_r. Qed.

Lemma Z2Qc_nonzero (z : Z) : z <> 0 -> Z2Qc z <> 0%Qc.
Proof.
  intros Hz E. apply (f_equal this) in E. rewrite this_Z2Qc in E.
  simpl in E. injection E as E. lia.
Qed.

Lemma Qc_is_zero_Z2Qc (z : Z) : Qc_is_zero (Z2Qc z) = (z =? 0).
Proof. unfold Qc_is_zero. now rewrite this_Z2Qc. Qed.

Lemma this_Q2Qc (q : Q) : (this (Q2Qc q) == q)%Q.
Proof. unfold Q2Qc. cbn [this]. apply Qred_correct. Qed.

Lemma this_div (a b : Qc) : (this (a / b)%Qc == this a / this b)%Q.
Proof. unfold Qcdiv, Qcmult, Qcinv. rewrite !this_Q2Qc. reflexivity. Qed.

Lemma this_plus (a b : Qc) : (this (a + b)%Qc == this a + this b)%Q.
Proof. unfold Qcplus. apply this_Q2Qc. Qed.

Lemma this_mult (a b : Qc) : (this (a * b)%Qc == this a * this b)%Q.
Proof. unfold Qcmult. apply this_Q2Qc. Qed.

Lemma this_opp (a : Qc) : (this (- a)%Qc == - this a)%Q.
Proof. unfold Qcopp. apply this_Q2Qc. Qed.

(** The floor of a rational is the one integer just below it. *)
Lemma Qfloor_unique (x : Q) (z : Z) :
  (inject_Z z <= x)%Q -> (x < inject_Z (z + 1))%Q -> Qfloor x = z.
Proof.
  intros Hlo Hhi.
  assert (H1 : z <= Qfloor x).
  { rewrite <- (Qfloor_Z z). now apply Qfloor_resp_le. }
  assert (H2 : Qfloor x < z + 1).
  { rewrite Zlt_Qlt. eapply Qle_lt_trans; [apply Qfloor_le | exact Hhi]. }
  lia.
Qed.

(** Truncation and floor agree on a rational that is not negative. *)
Lemma Qctrunc_nonneg (q : Qc) : (0 <= q)%Qc -> Qctrunc q = Qcfloor q.
Proof.
  unfold Qctrunc, Qcfloor, Qfloor, Qcle, Qle. destruct q as [[n d] c]. simpl.
  intros H. apply Z.quot_div_nonneg; lia.
Qed.

Lemma convert_finite (q : Qc) :
  convert_ddmmss_to_dd (Fin q) = Ok (Fin (dd_formula q)).
Proof.
  unfold convert_ddmmss_to_dd, py_floordiv, py_mod, py_truediv, of_int.
  cbn [is_zero bind py_int]. rewrite !Qc_is_zero_Z2Qc. cbn [Z.eqb bind py_int].
  rewrite Qctrunc_Z2Qc. reflexivity.
Qed.

(** Moving an order fact between [Qc] and [Q]. *)
Ltac to_Q :=
  unfold Qcle, Qclt in *;
  repeat (rewrite ?this_div, ?this_plus, ?this_mult, ?this_opp, ?this_Z2Qc in *;
          unfold Qcminus in * );
  rewrite ?this_div, ?this_plus, ?this_mult, ?this_opp, ?this_Z2Qc in *;
  change (this (Q2Qc 0)) with 0%Q in *;
  change (this (Q2Qc 1)) with 1%Q in *;
  change (inject_Z 1) with 1%Q in *;
  change (inject_Z 6) with 6%Q in *;
  change (inject_Z 60) with 60%Q in *;
  change (inject_Z 100) with 100%Q in *;
  change (inject_Z 180) with 180%Q in *.

Lemma floor_hundredth (q : Qc) (z : Z) :
  (Z2Qc z * Z2Qc 100 <= q)%Qc -> (q < Z2Qc (z + 1) * Z2Qc 100)%Qc ->
  Qcfloor (q / Z2Qc 100) = z.
Proof.
  intros Hlo Hhi. unfold Qcfloor. apply Qfloor_unique; to_Q.
  - apply Qle_shift_div_l; [reflexivity | exact Hlo].
  - apply Qlt_shift_div_r; [reflexivity | exact Hhi].
Qed.

Lemma convert_packed (D : Z) (M : Qc) :
  (0 <= M)%Qc -> (M < Z2Qc 60)%Qc ->
  Qcfloor ((Z2Qc D * Z2Qc 100 + M) / Z2Qc 100) = D /\
  convert_ddmmss_to_dd (Fin (Z2Qc D * Z2Qc 100 + M))
  = Ok (Fin (Z2Qc D + M / Z2Qc 60)).
Proof.
  intros HM0 HM60.
  assert (Hfl : Qcfloor ((Z2Qc D * Z2Qc 100 + M) / Z2Qc 100) = D).
  { apply floor_hundredth; to_Q.
    - lra.
    - rewrite inject_Z_plus. to_Q. lra. }
  split; [exact Hfl |].
  rewrite convert_finite. unfold dd_formula. rewrite Hfl.
  do 2 f_equal. field. apply Z2Qc_nonzero. lia.
Qed.

(** C3.  For a packed coordinate [p = D*100 + M] with an integer [D >= 0]
    and minutes [0 <= M < 60], the source's floor quotient is [D], its
    remainder is [M], and [convert_ddmmss_to_dd] returns exactly
    [D + M/60]. *)
Theorem convert_valid_packed (D : Z) (M : Qc) :
  0 <= D -> (0 <= M)%Qc -> (M < Z2Qc 60)%Qc ->
  let p := Fin (Z2Qc D * Z2Qc 100 + M) in
  py_floordiv p (of_int 100) = Ok (of_int D) /\
  py_mod p (of_int 100) = Ok (Fin M) /\
  convert_ddmmss_to_dd p = Ok (Fin (Z2Qc D + M / Z2Qc 60)).
Proof.
  intros HD HM0 HM60 p. subst p.
  destruct (convert_packed D M HM0 HM60) as [Hfl Hconv].
  split; [| split].
  - unfold py_floordiv, of_int. cbn [is_zero]. rewrite Qc_is_zero_Z2Qc.
    cbn [Z.eqb]. now rewrite Hfl.
  - unfold py_mod, of_int. cbn [is_zero]. rewrite Qc_is_zero_Z2Qc.
    cbn [Z.eqb]. rewrite Hfl. do 2 f_equal. ring.
  - exact Hconv.
Qed.

Lemma convert_valid_packed_witness :
  let M := Q2Qc (301234 # 10000) in
  (0 <= M)%Qc /\ (M < Z2Qc 60)%Qc /\
  convert_ddmmss_to_dd (Fin (Z2Qc 45 * Z2Qc 100 + M))
  = Ok (Fin (Z2Qc 45 + M / Z2Qc 60)).
Proof.
  intros M.
  assert (H0 : (0 <= M)%Qc) by (vm_compute; discriminate).
  assert (H60 : (M < Z2Qc 60)%Qc) by (vm_compute; reflexivity).
  split; [exact H0 | split; [exact H60 |]].
  apply (convert_valid_packed 45 M); [lia | exact H0 | exact H60].
Defined.

(** C4, on the source.  The minutes part is not checked: a packed
    value whose minutes are 75 is converted like any other. *)
Lemma convert_minutes_unchecked :
  py_mod (of_int 4575) (of_int 100) = Ok (of_int 75) /\
  convert_ddmmss_to_dd (of_int 4575) = Ok (Fin (Q2Qc (185 # 4))).
Proof.
  split.
  - unfold py_mod, of_int. cbn [is_zero]. rewrite Qc_is_zero_Z2Qc. cbn [Z.eqb].
    apply f_equal, f_equal, Qc_is_canon. vm_compute. reflexivity.
  - unfold of_int. rewrite convert_finite.
    apply f_equal, f_equal, Qc_is_canon. vm_compute. reflexivity.
Qed.

(** C4, amended.  [convert_ddmmss_to_dd] validates nothing: every finite
    input, whatever its minutes part, is converted to
    [floor(p/100) + (p - 100*floor(p/100))/60]; NaN and the two infinities
    give no value, the source ends with [ValueError] on them. *)
Theorem convert_no_validation :
  (forall q : Qc, convert_ddmmss_to_dd (Fin q) = Ok (Fin (dd_formula q))) /\
  convert_ddmmss_to_dd NaN = Err ValueError /\
  convert_ddmmss_to_dd PInf = Err ValueError /\
  convert_ddmmss_to_dd NInf = Err ValueError.
Proof.
  split; [exact convert_finite |].
  repeat split; unfold convert_ddmmss_to_dd, py_floordiv, of_int;
    cbn [is_zero]; rewrite Qc_is_zero_Z2Qc; reflexivity.
Qed.

(** The remainder of the source, [coord % 100], lies in [[0, 100)]. *)
Lemma residue_bounds (q : Qc) :
  (0 <= q - Z2Qc 100 * Z2Qc (Qcfloor (q / Z2Qc 100)))%Qc /\
  (q - Z2Qc 100 * Z2Qc (Qcfloor (q / Z2Qc 100)) < Z2Qc 100)%Qc.
Proof.
  assert (Hq : (this q == 100 * this (q / Z2Qc 100)%Qc)%Q).
  { rewrite this_div, this_Z2Qc. change (inject_Z 100) with 100%Q. field. }
  unfold Qcfloor, Qcle, Qclt, Qcminus.
  rewrite !this_plus, !this_opp, !this_mult, !this_Z2Qc.
  change (this (Q2Qc 0)) with 0%Q. change (inject_Z 100) with 100%Q.
  remember (this (q / Z2Qc 100)%Qc) as x eqn:Ex.
  pose proof (Qfloor_le x) as Hlo. pose proof (Qlt_floor x) as Hhi.
  rewrite inject_Z_plus in Hhi. change (inject_Z 1) with 1%Q in Hhi.
  split; lra.
Qed.

(** C10.  On a negative packed value the quotient is rounded down and the
    remainder is the residue in [[0, 100)]: for [p = D*100 + M] with
    [D > 0] and [0 < M < 60] the source maps [-p] to
    [-(D+1) + (100 - M)/60], which is not the negation of what it returns
    on [p]; and on every finite input the degrees are the floor of
    [coord/100] and the minutes a remainder in [[0, 100)]. *)
Theorem convert_not_odd (D : Z) (M : Qc) :
  0 < D -> (0 < M)%Qc -> (M < Z2Qc 60)%Qc ->
  let p := (Z2Qc D * Z2Qc 100 + M)%Qc in
  py_floordiv (Fin (- p)) (of_int 100) = Ok (of_int (- D - 1)) /\
  py_mod (Fin (- p)) (of_int 100) = Ok (Fin (Z2Qc 100 - M)) /\
  convert_ddmmss_to_dd (Fin (- p))
  = Ok (Fin (Z2Qc (- D - 1) + (Z2Qc 100 - M) / Z2Qc 60)) /\
  (forall r, convert_ddmmss_to_dd (Fin p) = Ok r ->
             convert_ddmmss_to_dd (Fin (- p)) <> Ok (num_opp r)) /\
  (forall q : Qc,
     py_floordiv (Fin q) (of_int 100) = Ok (of_int (Qcfloor (q / Z2Qc 100))) /\
     exists m : Qc,
       py_mod (Fin q) (of_int 100) = Ok (Fin m) /\
       (0 <= m)%Qc /\ (m < Z2Qc 100)%Qc).
Proof.
  intros HD HM0 HM60 p.
  assert (HZ : (inject_Z (- D - 1) == - inject_Z D - 1)%Q).
  { unfold Z.sub. rewrite inject_Z_plus, inject_Z_opp.
    change (inject_Z (- (1))) with (- (1))%Q. ring. }
  assert (Hfl : Qcfloor (- p / Z2Qc 100) = - D - 1).
  { subst p. apply floor_hundredth.
    - to_Q. rewrite HZ. lra.
    - replace (- D - 1 + 1) with (- D) by lia. to_Q.
      rewrite inject_Z_opp. lra. }
  assert (H60 : Z2Qc 60 <> 0%Qc) by (apply Z2Qc_nonzero; lia).
  assert (Hm1 : Z2Qc (- D - 1) = (- Z2Qc D - 1)%Qc).
  { apply Qc_is_canon. to_Q. rewrite HZ. reflexivity. }
  assert (Hconv : convert_ddmmss_to_dd (Fin (- p))
                  = Ok (Fin (Z2Qc (- D - 1) + (Z2Qc 100 - M) / Z2Qc 60))).
  { rewrite convert_finite. unfold dd_formula. rewrite Hfl, Hm1.
    do 2 f_equal. subst p. field. exact H60. }
  split; [| split; [| split; [| split]]].
  - unfold py_floordiv, of_int. cbn [is_zero]. rewrite Qc_is_zero_Z2Qc.
    cbn [Z.eqb]. now rewrite Hfl.
  - unfold py_mod, of_int. cbn [is_zero]. rewrite Qc_is_zero_Z2Qc.
    cbn [Z.eqb]. rewrite Hfl, Hm1. do 2 f_equal. subst p. ring.
  - exact Hconv.
  - intros r Hr. rewrite Hconv.
    destruct (convert_packed D M) as (_ & Hpos);
      [now apply Qclt_le_weak | exact HM60 |].
    fold p in Hpos. rewrite Hpos in Hr.
    assert (Er : r = Fin (Z2Qc D + M / Z2Qc 60)) by congruence.
    subst r. cbn [num_opp]. intros E.
    apply (f_equal (fun x => match x with Ok (Fin q) => q | _ => 0%Qc end)) in E.
    cbv beta iota in E. rewrite Hm1 in E.
    assert (Hgap : ((- Z2Qc D - 1 + (Z2Qc 100 - M) / Z2Qc 60)
                    - - (Z2Qc D + M / Z2Qc 60) = Z2Qc 2 / Z2Qc 3)%Qc).
    { apply Qc_is_canon. to_Q. change (inject_Z 2) with 2%Q.
      change (inject_Z 3) with 3%Q. field. }
    rewrite E in Hgap. unfold Qcminus in Hgap. rewrite Qcplus_opp_r in Hgap.
    apply (f_equal this) in Hgap. vm_compute in Hgap. discriminate.
  - intros q. unfold py_floordiv, py_mod, of_int. cbn [is_zero].
    rewrite Qc_is_zero_Z2Qc. cbn [Z.eqb]. split; [reflexivity |].
    eexists. split; [reflexivity |]. apply residue_bounds.
Qed.

Lemma convert_not_odd_witness :
  let M := Q2Qc (301234 # 10000) in
  (0 < M)%Qc /\ (M < Z2Qc 60)%Qc /\
  forall r, convert_ddmmss_to_dd (Fin (Z2Qc 45 * Z2Qc 100 + M)) = Ok r ->
            convert_ddmmss_to_dd (Fin (- (Z2Qc 45 * Z2Qc 100 + M))) <> Ok (num_opp r).
Proof.
  intros M.
  assert (H0 : (0 < M)%Qc) by (vm_compute; reflexivity).
  assert (H60 : (M < Z2Qc 60)%Qc) by (vm_compute; reflexivity).
  split; [exact H0 | split; [exact H60 |]].
  apply (convert_not_odd 45 M ltac:(lia) H0 H60).
Defined.

(** ** Zone selection *)

Lemma utm_zone_of_finite (lon : Qc) :
  utm_zone_of (Fin lon)
  = Ok (Qctrunc ((lon + Z2Qc 180) / Z2Qc 6) + 1).
Proof.
  unfold utm_zone_of, py_truediv, of_int. cbn [is_zero num_add].
  rewrite Qc_is_zero_Z2Qc. cbn [Z.eqb bind np_truediv].
  rewrite Qc_is_zero_Z2Qc. reflexivity.
Qed.




(** ** Times of day *)

Lemma in_range (n : nat) (z : Z) : 0 <= z < Z.of_nat n -> In z (range n).
Proof.
  intros H. unfold range. apply in_map_iff. exists (Z.to_nat z). split.
  - lia.
  - apply in_seq. lia.
Qed.

(** Every time of day is checked by evaluation. *)
Lemma parse_check_all :
  forallb (fun h => forallb (fun m => forallb (fun s => parse_check h m s)
    (range 60)) (range 60)) (range 24) = true.
Proof. vm_compute. reflexivity. Qed.

Lemma strptime_valid (t : Z) :
  valid_hhmmss t ->
  strptime_HMS (zfill 6 (py_str t))
  = Ok (mk_datetime (t / 10000) ((t / 100) mod 100) (t mod 100)).
Proof.
  intros (H0 & Hh & Hm & Hs).
  set (h := t / 10000). set (m := (t / 100) mod 100). set (s := t mod 100).
  assert (Ht : t = h * 10000 + m * 100 + s).
  { subst h m s.
    assert (E : t / 10000 = t / 100 / 100) by (now rewrite Z.div_div by lia).
    rewrite E. pose proof (Z.div_mod t 100).
    pose proof (Z.div_mod (t / 100) 100). lia. }
  assert (Hh0 : 0 <= h) by (subst h; apply Z.div_pos; lia).
  assert (Hm0 : 0 <= m < 100) by (subst m; apply Z.mod_pos_bound; lia).
  assert (Hs0 : 0 <= s < 100) by (subst s; apply Z.mod_pos_bound; lia).
  pose proof parse_check_all as Hall.
  rewrite forallb_forall in Hall.
  specialize (Hall h (in_range 24 h ltac:(fold h in Hh; lia))).
  rewrite forallb_forall in Hall.
  specialize (Hall m (in_range 60 m ltac:(fold m in Hm; lia))).
  rewrite forallb_forall in Hall.
  specialize (Hall s (in_range 60 s ltac:(fold s in Hs; lia))).
  unfold parse_check in Hall. rewrite <- Ht in Hall.
  destruct (strptime_HMS (zfill 6 (py_str t))) as [[h' m' s'] | e];
    [| discriminate].
  cbn [hour minute second] in Hall.
  apply andb_prop in Hall as [Hall Hs']. apply andb_prop in Hall as [Hh' Hm'].
  apply Z.eqb_eq in Hh', Hm', Hs'. now rewrite Hh', Hm', Hs'.
Qed.

Lemma parse_time_of_int (t : Z) :
  parse_time (of_int t) = strptime_HMS (zfill 6 (py_str t)).
Proof. unfold parse_time, of_int. cbn [py_int bind]. now rewrite Qctrunc_Z2Qc. Qed.

Lemma total_seconds_self (d : datetime) : total_seconds d d = of_int 0.
Proof. unfold total_seconds. now rewrite Z.sub_diag. Qed.

(** ** The result monad *)

Lemma bind_ok {A B : Type} (m : result A) (k : A -> result B) (b : B) :
  bind m k = Ok b -> exists a, m = Ok a /\ k a = Ok b.
Proof. destruct m as [a | e]; cbn; [eauto | discriminate]. Qed.

Lemma mapM_cons_ok {A B : Type} (f : A -> result B) (a : A) (l : list A)
    (bs : list B) :
  mapM f (a :: l) = Ok bs ->
  exists b bs', f a = Ok b /\ mapM f l = Ok bs' /\ bs = b :: bs'.
Proof.
  cbn [mapM]. intros H.
  apply bind_ok in H as (b & Hb & H). apply bind_ok in H as (bs' & Hbs & H).
  injection H as <-. eauto.
Qed.


(** Inversion of one [bind] in a hypothesis [H : (x <- m ;; k) = Ok _]. *)
Ltac bind_inv H x Hx :=
  apply bind_ok in H; destruct H as (x & Hx & H).

(** ** Elapsed seconds *)

Section Elapsed.

Variable transformer : string -> option (num -> num -> num * num).

(** In an assembled frame the first row's elapsed value is 0. *)
Lemma first_row_elapsed_zero (rows : list RawReading)
    (df : list EnrichedReading) :
  load_and_prepare_data transformer rows = Ok df ->
  exists e df', df = e :: df' /\ Relative_Seconds e = of_int 0.
Proof.
  unfold load_and_prepare_data. intros H.
  bind_inv H lat Hlat. bind_inv H lon Hlon. bind_inv H zone Hzone.
  bind_inv H tr Htr. bind_inv H ts Hts. bind_inv H t0 Ht0.
  bind_inv H st Hst. bind_inv H rel Hrel. injection H as <-.
  destruct rows as [| r rows]; [discriminate Ht0 |].
  cbn [map iloc0] in *. injection Ht0 as <-.
  apply mapM_cons_ok in Hlat as (la & lat' & _ & _ & ->).
  apply mapM_cons_ok in Hlon as (lo & lon' & _ & _ & ->).
  apply mapM_cons_ok in Hts as (t & ts' & _ & _ & ->).
  apply mapM_cons_ok in Hrel as (s & rel' & Hs & _ & ->).
  cbn [combine map assemble].
  eexists _, _. split; [reflexivity |]. cbn [Relative_Seconds].
  unfold calculate_relative_seconds in Hs. rewrite Hst in Hs. cbn [bind] in Hs.
  injection Hs as <-. apply total_seconds_self.
Qed.

(** C8.  For two valid packed times the source's elapsed value is the
    signed difference of the two times of day in seconds, without wrapping
    at midnight; it is 0 when both times are the same, and the first row
    of an assembled frame has the elapsed value 0. *)
Theorem elapsed_seconds_signed (t t0 : Z) :
  valid_hhmmss t -> valid_hhmmss t0 ->
  (exists start_time,
     parse_time (of_int t0) = Ok start_time /\
     calculate_relative_seconds (of_int t) start_time
     = Ok (of_int (seconds_of_day t - seconds_of_day t0)) /\
     calculate_relative_seconds (of_int t0) start_time = Ok (of_int 0)) /\
  (forall rows df, load_and_prepare_data transformer rows = Ok df ->
     exists e df', df = e :: df' /\ Relative_Seconds e = of_int 0).
Proof.
  intros Ht Ht0. split; [| exact first_row_elapsed_zero].
  eexists. split; [| split].
  - rewrite parse_time_of_int. now apply strptime_valid.
  - unfold calculate_relative_seconds. rewrite parse_time_of_int.
    rewrite (strptime_valid t Ht). reflexivity.
  - unfold calculate_relative_seconds. rewrite parse_time_of_int.
    rewrite (strptime_valid t0 Ht0). cbn [bind]. now rewrite total_seconds_self.
Qed.

End Elapsed.

Lemma elapsed_seconds_signed_witness :
  valid_hhmmss 235959 /\ valid_hhmmss 100000 /\
  exists start_time,
    parse_time (of_int 100000) = Ok start_time /\
    calculate_relative_seconds (of_int 235959) start_time
    = Ok (of_int (seconds_of_day 235959 - seconds_of_day 100000)) /\
    calculate_relative_seconds (of_int 100000) start_time = Ok (of_int 0).
Proof.
  assert (H1 : valid_hhmmss 235959) by (unfold valid_hhmmss; cbn; lia).
  assert (H2 : valid_hhmmss 100000) by (unfold valid_hhmmss; cbn; lia).
  split; [exact H1 | split; [exact H2 |]].
  exact (proj1 (elapsed_seconds_signed (fun _ => None) 235959 100000 H1 H2)).
Defined.

(** ** The end-to-end example *)

Section Example.

Variable transformer : string -> option (num -> num -> num * num).
Variable cmap : num -> rgba.




End Example.


(** ** Failures during assembly *)


Section Assembly.

Variable transformer : string -> option (num -> num -> num * num).


End Assembly.


(** ** The two consumers and the frame *)






Section Consumers.

Variable cmap : num -> rgba.


End Consumers.


(** ** The degenerate colour scale *)

Lemma num_ltb_irrefl (x : num) : num_ltb x x = false.
Proof.
  destruct x as [q | | |]; try reflexivity. cbn.
  assert (E : (q ?= q)%Qc = Eq) by (apply Qeq_alt; reflexivity).
  now rewrite E.
Qed.






Section Degenerate.

Variable cmap : num -> rgba.



End Degenerate.

(** With a colour map that separates NaN from 0, as [ramp3] does, the two
    colours of a degenerate frame are different colours. *)
Lemma degenerate_colors_distinct :
  get_kml_color ramp3 (of_int 100) (of_int 100) (of_int 100)
  = Color_rgb 0 0 0 0 /\
  (r <- chart_color ramp3 (of_int 100) (of_int 100) (of_int 100) ;;
   Ok (to_kml_color r)) = Ok (Color_rgb 0 104 55 255).
Proof. split; vm_compute; reflexivity. Qed.


(** * Further properties of the code *)

(** ** Strings *)

Lemma length_app (s1 s2 : string) :
  String.length (s1 ++ s2) = (String.length s1 + String.length s2)%nat.
Proof. induction s1 as [| c s1 IH]; cbn; [| rewrite IH]; reflexivity. Qed.

Lemma length_zeros (n : nat) : String.length (zeros n) = n.
Proof. induction n as [| n IH]; cbn; [| rewrite IH]; reflexivity. Qed.

Lemma zfill_length (w : nat) (s : string) :
  String.length (zfill w s) = Nat.max w (String.length s).
Proof.
  unfold zfill. destruct s as [| c s]; cbn [String.length].
  - rewrite length_zeros. lia.
  - destruct (Ascii.eqb c "-" || Ascii.eqb c "+")%bool; cbn [String.length];
      rewrite length_app, length_zeros; cbn [String.length]; lia.
Qed.

Lemma substring_length (a n : nat) (s : string) :
  (a + n <= String.length s)%nat -> String.length (substring a n s) = n.
Proof.
  revert a n. induction s as [| c s IH]; intros a n H; cbn in H.
  - assert (a = 0%nat) by lia. assert (n = 0%nat) by lia. now subst.
  - destruct a as [| a].
    + destruct n as [| n]; cbn; [reflexivity |]. f_equal. apply IH. lia.
    + cbn. apply IH. lia.
Qed.

Lemma length2_inv (s : string) :
  String.length s = 2%nat ->
  exists c1 c2, s = String c1 (String c2 EmptyString).
Proof.
  destruct s as [| c1 [| c2 [| c3 s]]]; cbn; intros H; try discriminate.
  eauto.
Qed.

Lemma display_shape (s : string) :
  (6 <= String.length s)%nat ->
  String.length (display s) = 8%nat /\
  get 2 (display s) = Some ":"%char /\
  get 5 (display s) = Some ":"%char.
Proof.
  intros H. unfold display, slice.
  destruct (length2_inv (substring 0 (2 - 0) s)) as (a1 & a2 & ->);
    [apply substring_length; lia |].
  destruct (length2_inv (substring 2 (4 - 2) s)) as (b1 & b2 & ->);
    [apply substring_length; lia |].
  destruct (length2_inv (substring 4 (6 - 4) s)) as (c1 & c2 & ->);
    [apply substring_length; lia |].
  repeat split.
Qed.

Lemma format_time_string_finite (q : Qc) :
  format_time_string (Fin q) = Ok (display (zfill 6 (py_str (Qctrunc q)))).
Proof. reflexivity. Qed.

(** X1.  [format_time_string] fails only on a value that is not finite
    (NaN: [ValueError], an infinity: [OverflowError]).  On every finite
    value, in range or not, negative or not, it returns a string of exactly
    eight characters with a colon at positions 2 and 5. *)
Theorem format_time_string_shape :
  format_time_string NaN = Err ValueError /\
  format_time_string PInf = Err OverflowError /\
  format_time_string NInf = Err OverflowError /\
  forall q : Qc, exists s,
    format_time_string (Fin q) = Ok s /\
    String.length s = 8%nat /\
    get 2 s = Some ":"%char /\ get 5 s = Some ":"%char.
Proof.
  split; [reflexivity |]. split; [reflexivity |]. split; [reflexivity |].
  intros q. eexists. split; [apply format_time_string_finite |].
  apply display_shape. rewrite zfill_length. lia.
Qed.

(** Every time of day is checked by evaluation. *)
Lemma display_check_all :
  forallb (fun h => forallb (fun m => forallb (fun s => display_check h m s)
    (range 60)) (range 60)) (range 24) = true.
Proof. vm_compute. reflexivity. Qed.

Lemma valid_hhmmss_fields (t : Z) :
  valid_hhmmss t ->
  let h := t / 10000 in let m := (t / 100) mod 100 in let s := t mod 100 in
  t = h * 10000 + m * 100 + s /\ 0 <= h <= 23 /\ 0 <= m <= 59 /\ 0 <= s <= 59.
Proof.
  intros (H0 & Hh & Hm & Hs). cbv zeta.
  assert (E : t / 10000 = t / 100 / 100) by (now rewrite Z.div_div by lia).
  pose proof (Z.div_mod t 100). pose proof (Z.div_mod (t / 100) 100).
  pose proof (Z.mod_pos_bound t 100). pose proof (Z.mod_pos_bound (t / 100) 100).
  assert (0 <= t / 10000) by (apply Z.div_pos; lia).
  repeat split; lia.
Qed.

(** X2.  For a valid packed time the display string is the hour, the minute
    and the second, each with two digits, separated by colons. *)
Theorem format_time_string_valid (t : Z) :
  valid_hhmmss t ->
  format_time_string (of_int t)
  = Ok (two_digits (t / 10000) ++ ":" ++ two_digits ((t / 100) mod 100)
        ++ ":" ++ two_digits (t mod 100)).
Proof.
  intros Hv. destruct (valid_hhmmss_fields t Hv) as (Ht & Hh & Hm & Hs).
  unfold of_int. rewrite format_time_string_finite, Qctrunc_Z2Qc. f_equal.
  pose proof display_check_all as Hall.
  rewrite forallb_forall in Hall.
  specialize (Hall _ (in_range 24 (t / 10000) ltac:(lia))).
  rewrite forallb_forall in Hall.
  specialize (Hall _ (in_range 60 ((t / 100) mod 100) ltac:(lia))).
  rewrite forallb_forall in Hall.
  specialize (Hall _ (in_range 60 (t mod 100) ltac:(lia))).
  unfold display_check in Hall. rewrite <- Ht in Hall.
  now apply String.eqb_eq in Hall.
Qed.

Lemma format_time_string_valid_witness :
  valid_hhmmss 93005 /\ format_time_string (of_int 93005) = Ok "09:30:05".
Proof.
  assert (H : valid_hhmmss 93005) by (unfold valid_hhmmss; cbn; lia).
  split; [exact H |]. exact (format_time_string_valid 93005 H).
Defined.

(** ** Parsed times *)

Lemma digit_val_range (c : ascii) (d : Z) :
  digit_val c = Some d -> 0 <= d <= 9.
Proof.
  destruct c as [b0 b1 b2 b3 b4 b5 b6 b7].
  destruct b0, b1, b2, b3, b4, b5, b6, b7; cbn; intros H;
    try discriminate; injection H as <-; lia.
Qed.

Lemma field_matches_in (ok2 : Z -> Z -> bool) (s : string) (v : Z)
    (rest : string) :
  In (v, rest) (field_matches ok2 s) ->
  0 <= v <= 9 \/
  exists d1 d2, v = 10 * d1 + d2 /\ 0 <= d1 <= 9 /\ 0 <= d2 <= 9 /\
                ok2 d1 d2 = true.
Proof.
  unfold field_matches. destruct s as [| c1 rest1]; [intros [] |].
  destruct (digit_val c1) as [d1 |] eqn:E1; [| intros []].
  apply digit_val_range in E1. intros H. apply in_app_or in H as [H | H].
  - destruct rest1 as [| c2 rest2]; [destruct H |].
    destruct (digit_val c2) as [d2 |] eqn:E2; [| destruct H].
    apply digit_val_range in E2.
    destruct (ok2 d1 d2) eqn:Eok; [| destruct H].
    destruct H as [H | []]. injection H as <- <-. right. exists d1, d2.
    split; [reflexivity | split; [lia | split; [lia | exact Eok]]].
  - destruct H as [H | []]. injection H as <- <-. now left.
Qed.

Lemma hd_error_in {A : Type} (l : list A) (a : A) :
  hd_error l = Some a -> In a l.
Proof. destruct l; cbn; intros H; [discriminate | injection H as <-; now left]. Qed.

(** A time that [strptime] accepts is a time of day. *)
Lemma strptime_range (s : string) (d : datetime) :
  strptime_HMS s = Ok d ->
  0 <= hour d <= 23 /\ 0 <= minute d <= 59 /\ 0 <= second d <= 59.
Proof.
  unfold strptime_HMS. destruct (match_HMS s) as [[[[h m] sec] rest] |] eqn:E;
    [| discriminate].
  destruct rest; [| discriminate].
  destruct (sec <=? 59) eqn:E59; [| discriminate].
  intros H. injection H as <-. cbn [hour minute second].
  apply Z.leb_le in E59.
  unfold match_HMS in E. apply hd_error_in in E.
  apply in_flat_map in E as ([h' s1] & Hh & E).
  apply in_flat_map in E as ([m' s2] & Hm & E).
  apply in_map_iff in E as ([sec' s3] & E & Hs).
  injection E as -> -> -> _.
  apply field_matches_in in Hh, Hm, Hs.
  repeat split.
  - destruct Hh as [? | (d1 & d2 & -> & ? & ? & ?)]; lia.
  - destruct Hh as [? | (d1 & d2 & -> & ? & ? & Hok)]; [lia |].
    unfold ok_H in Hok. apply orb_prop in Hok as [Hok | Hok].
    + apply andb_prop in Hok as [H2 H3]. apply Z.eqb_eq in H2.
      apply Z.leb_le in H3. lia.
    + apply Z.leb_le in Hok. lia.
  - destruct Hm as [? | (d1 & d2 & -> & ? & ? & ?)]; lia.
  - destruct Hm as [? | (d1 & d2 & -> & ? & ? & Hok)]; [lia |].
    unfold ok_M in Hok. apply Z.leb_le in Hok. lia.
  - destruct Hs as [? | (d1 & d2 & -> & ? & ? & ?)]; lia.
  - exact E59.
Qed.

Lemma parse_time_range (t : num) (d : datetime) :
  parse_time t = Ok d -> 0 <= second_of_day d <= 86399.
Proof.
  unfold parse_time. intros H. apply bind_ok in H as (n & _ & H).
  apply strptime_range in H. unfold second_of_day. lia.
Qed.

Lemma calculate_relative_seconds_ok (time : num) (st : datetime) (x : num) :
  calculate_relative_seconds time st = Ok x ->
  exists ct, parse_time time = Ok ct /\
             x = of_int (second_of_day ct - second_of_day st).
Proof.
  unfold calculate_relative_seconds. intros H.
  apply bind_ok in H as (ct & Hct & H). injection H as <-. eauto.
Qed.

Lemma parse_time_valid (t : Z) :
  valid_hhmmss t ->
  exists d, parse_time (of_int t) = Ok d /\ second_of_day d = seconds_of_day t.
Proof.
  intros H. eexists. split.
  - rewrite parse_time_of_int. now apply strptime_valid.
  - reflexivity.
Qed.

(** ** Columns of the assembled frame *)

Lemma mapM_length {A B : Type} (f : A -> result B) (l : list A) (bs : list B) :
  mapM f l = Ok bs -> List.length bs = List.length l.
Proof.
  revert bs. induction l as [| a l IH]; intros bs H.
  - injection H as <-. reflexivity.
  - apply mapM_cons_ok in H as (b & bs' & _ & Hbs & ->).
    cbn. f_equal. now apply IH.
Qed.

Lemma mapM_forall2 {A B : Type} (f : A -> result B) (l : list A) (bs : list B) :
  mapM f l = Ok bs -> Forall2 (fun a b => f a = Ok b) l bs.
Proof.
  revert bs. induction l as [| a l IH]; intros bs H.
  - injection H as <-. constructor.
  - apply mapM_cons_ok in H as (b & bs' & Hb & Hbs & ->).
    constructor; [exact Hb | now apply IH].
Qed.

Lemma Forall2_right {A B : Type} (R : A -> B -> Prop) (P : B -> Prop)
    (l : list A) (l' : list B) :
  Forall2 R l l' -> (forall a b, R a b -> P b) -> Forall P l'.
Proof. intros H HP. induction H; constructor; eauto. Qed.

Lemma mapM_all_ok {A B : Type} (f : A -> result B) (l : list A) :
  (forall a, In a l -> exists b, f a = Ok b) -> exists bs, mapM f l = Ok bs.
Proof.
  induction l as [| a l IH]; intros H; [now exists [] |].
  destruct (H a (or_introl eq_refl)) as (b & Hb).
  destruct IH as (bs & Hbs); [intros x Hx; apply H; now right |].
  exists (b :: bs). cbn [mapM]. rewrite Hb, Hbs. reflexivity.
Qed.

Lemma assemble_columns (rows : list RawReading)
    (lat lon ea no : list num) (zone : Z) (ts : list string) (rel : list num) :
  List.length lat = List.length rows -> List.length lon = List.length rows ->
  List.length ea = List.length rows -> List.length no = List.length rows ->
  List.length ts = List.length rows -> List.length rel = List.length rows ->
  let df := assemble rows lat lon ea no zone ts rel in
  map reading df = rows /\ map Latitude_DD df = lat /\
  map Longitude_DD df = lon /\ map Easting_m df = ea /\
  map Northing_m df = no /\ map Time_HHMMSS df = ts /\
  map Relative_Seconds df = rel /\ map UTM_Zone df = map (fun _ => zone) rows.
Proof.
  revert lat lon ea no ts rel.
  induction rows as [| r rows IH]; intros lat lon ea no ts rel H1 H2 H3 H4 H5 H6.
  - destruct lat, lon, ea, no, ts, rel; try discriminate. cbn. tauto.
  - destruct lat as [| la lat], lon as [| lo lon], ea as [| e ea],
      no as [| n no], ts as [| t ts], rel as [| s rel]; try discriminate.
    cbn in H1, H2, H3, H4, H5, H6.
    destruct (IH lat lon ea no ts rel) as (I1 & I2 & I3 & I4 & I5 & I6 & I7 & I8);
      try lia.
    cbn. rewrite I1, I2, I3, I4, I5, I6, I7, I8. tauto.
Qed.

Lemma pair_columns (l : list EnrichedReading) :
  map (fun e => (Easting_m e, Northing_m e)) l
  = combine (map Easting_m l) (map Northing_m l).
Proof. induction l as [| e l IH]; cbn; [| rewrite IH]; reflexivity. Qed.

Lemma combine_fst_snd {A B : Type} (l : list (A * B)) :
  combine (map fst l) (map snd l) = l.
Proof. induction l as [| [a b] l IH]; cbn; [| rewrite IH]; reflexivity. Qed.

Section AssembledFrame.

Variable transformer : string -> option (num -> num -> num * num).

(** What a successful run of [load_and_prepare_data] has computed. *)
Lemma load_ok_inv (rows : list RawReading) (df : list EnrichedReading) :
  load_and_prepare_data transformer rows = Ok df ->
  exists lat lon zone f ts r0 rows' st rel,
    mapM convert_ddmmss_to_dd (map Latitude rows) = Ok lat /\
    mapM convert_ddmmss_to_dd (map Longitude rows) = Ok lon /\
    utm_zone_of (series_mean lon) = Ok zone /\
    transformer ("326" ++ py_str zone) = Some f /\
    mapM format_time_string (map Time rows) = Ok ts /\
    rows = r0 :: rows' /\ parse_time (Time r0) = Ok st /\
    mapM (fun r => calculate_relative_seconds (Time r) st) rows = Ok rel /\
    map reading df = rows /\ map Latitude_DD df = lat /\
    map Longitude_DD df = lon /\
    map (fun e => (Easting_m e, Northing_m e)) df
    = map (fun '(lo, la) => f lo la) (combine lon lat) /\
    map Time_HHMMSS df = ts /\ map Relative_Seconds df = rel /\
    map UTM_Zone df = map (fun _ => zone) rows.
Proof.
  unfold load_and_prepare_data. intros H.
  bind_inv H lat Hlat. bind_inv H lon Hlon. bind_inv H zone Hzone.
  bind_inv H f Hf. bind_inv H ts Hts. bind_inv H t0 Ht0.
  bind_inv H st Hst. bind_inv H rel Hrel. injection H as <-.
  destruct rows as [| r0 rows']; [discriminate Ht0 |].
  injection Ht0 as <-.
  unfold Transformer_from_crs in Hf.
  destruct (transformer ("326" ++ py_str zone)) as [f' |] eqn:Ef;
    [| discriminate]. injection Hf as ->.
  pose proof (mapM_length _ _ _ Hlat) as L1.
  pose proof (mapM_length _ _ _ Hlon) as L2.
  pose proof (mapM_length _ _ _ Hts) as L3.
  pose proof (mapM_length _ _ _ Hrel) as L4.
  rewrite length_map in L1, L2, L3.
  set (en := map (fun '(lo, la) => f lo la) (combine lon lat)).
  assert (Len : List.length en = List.length (r0 :: rows')).
  { unfold en. rewrite length_map, length_combine. lia. }
  destruct (assemble_columns (r0 :: rows') lat lon (map fst en) (map snd en)
              zone ts rel) as (A1 & A2 & A3 & A4 & A5 & A6 & A7 & A8);
    rewrite ?length_map; try assumption.
  exists lat, lon, zone, f, ts, r0, rows', st, rel.
  repeat (split; [first [assumption | reflexivity] |]).
  split; [| tauto].
  rewrite pair_columns, A4, A5. apply combine_fst_snd.
Qed.

(** X3.  In an assembled frame every elapsed value is a whole number of
    seconds strictly between -86400 and 86400: both times are read as
    times of one day. *)
Theorem elapsed_seconds_bounded (rows : list RawReading)
    (df : list EnrichedReading) :
  load_and_prepare_data transformer rows = Ok df ->
  Forall (fun e => exists k, Relative_Seconds e = of_int k /\
                             -86400 < k < 86400) df.
Proof.
  intros H.
  destruct (load_ok_inv rows df H)
    as (lat & lon & zone & f & ts & r0 & rows' & st & rel & _ & _ & _ & _ & _
        & _ & Hst & Hrel & _ & _ & _ & _ & _ & Hcol & _).
  apply parse_time_range in Hst.
  apply Forall_forall. intros e He.
  apply (in_map Relative_Seconds) in He. rewrite Hcol in He.
  apply mapM_forall2 in Hrel.
  assert (Hall : Forall (fun x => exists k, x = of_int k /\ -86400 < k < 86400) rel).
  { apply (Forall2_right _ _ _ _ Hrel). intros r x Hx.
    apply calculate_relative_seconds_ok in Hx as (ct & Hct & ->).
    apply parse_time_range in Hct. eexists. split; [reflexivity | lia]. }
  rewrite Forall_forall in Hall. exact (Hall _ He).
Qed.

End AssembledFrame.

Lemma elapsed_seconds_bounded_witness :
  load_and_prepare_data plate_carree ex_rows = Ok ex_df /\
  Forall (fun e => exists k, Relative_Seconds e = of_int k /\
                             -86400 < k < 86400) ex_df.
Proof.
  assert (H : load_and_prepare_data plate_carree ex_rows = Ok ex_df)
    by (vm_compute; reflexivity).
  split; [exact H |]. exact (elapsed_seconds_bounded plate_carree _ _ H).
Defined.

(** X4.  Against one valid start time, the elapsed value of a valid packed
    time grows with the packed time: an earlier time of day has the smaller
    elapsed value, and only equal times have equal values. *)
Theorem elapsed_seconds_order (t0 t1 t2 : Z) :
  valid_hhmmss t0 -> valid_hhmmss t1 -> valid_hhmmss t2 ->
  exists st k1 k2,
    parse_time (of_int t0) = Ok st /\
    calculate_relative_seconds (of_int t1) st = Ok (of_int k1) /\
    calculate_relative_seconds (of_int t2) st = Ok (of_int k2) /\
    (t1 < t2 <-> k1 < k2) /\ (t1 = t2 <-> k1 = k2).
Proof.
  intros H0 H1 H2.
  destruct (parse_time_valid t0 H0) as (st & Hst & _).
  destruct (parse_time_valid t1 H1) as (d1 & Hd1 & E1).
  destruct (parse_time_valid t2 H2) as (d2 & Hd2 & E2).
  exists st, (second_of_day d1 - second_of_day st),
    (second_of_day d2 - second_of_day st).
  split; [exact Hst |].
  unfold calculate_relative_seconds. rewrite Hd1, Hd2. cbn [bind].
  split; [reflexivity |]. split; [reflexivity |].
  rewrite E1, E2. unfold seconds_of_day.
  destruct (valid_hhmmss_fields t1 H1) as (T1 & ? & ? & ?).
  destruct (valid_hhmmss_fields t2 H2) as (T2 & ? & ? & ?).
  split; lia.
Qed.

Lemma elapsed_seconds_order_witness :
  valid_hhmmss 100000 /\ valid_hhmmss 95959 /\ valid_hhmmss 100001 /\
  exists st k1 k2,
    parse_time (of_int 100000) = Ok st /\
    calculate_relative_seconds (of_int 95959) st = Ok (of_int k1) /\
    calculate_relative_seconds (of_int 100001) st = Ok (of_int k2) /\
    (95959 < 100001 <-> k1 < k2) /\ (95959 = 100001 <-> k1 = k2).
Proof.
  assert (H0 : valid_hhmmss 100000) by (unfold valid_hhmmss; cbn; lia).
  assert (H1 : valid_hhmmss 95959) by (unfold valid_hhmmss; cbn; lia).
  assert (H2 : valid_hhmmss 100001) by (unfold valid_hhmmss; cbn; lia).
  split; [exact H0 | split; [exact H1 | split; [exact H2 |]]].
  exact (elapsed_seconds_order 100000 95959 100001 H0 H1 H2).
Defined.

(** ** The assembled frame, row by row *)

Lemma map_eq_Forall {A B : Type} (g h : A -> B) (l : list A) :
  map g l = map h l -> Forall (fun a => g a = h a) l.
Proof.
  induction l as [| a l IH]; cbn; intros H; constructor.
  - now injection H.
  - apply IH. now injection H.
Qed.

Lemma Forall2_maps {A B C : Type} (R : B -> C -> Prop) (g : A -> B)
    (h : A -> C) (l : list A) :
  Forall2 R (map g l) (map h l) -> Forall (fun a => R (g a) (h a)) l.
Proof.
  induction l as [| a l IH]; cbn; intros H; constructor; inversion H; auto.
Qed.

Lemma combine_maps {A B C : Type} (g : A -> B) (h : A -> C) (l : list A) :
  combine (map g l) (map h l) = map (fun a => (g a, h a)) l.
Proof. induction l as [| a l IH]; cbn; [| rewrite IH]; reflexivity. Qed.

Section FrameRows.

Variable transformer : string -> option (num -> num -> num * num).

(** X5.  Assembly drops, reorders and alters no row: the raw readings of
    the frame are the input rows, in input order. *)
Theorem assembly_keeps_rows (rows : list RawReading)
    (df : list EnrichedReading) :
  load_and_prepare_data transformer rows = Ok df ->
  map reading df = rows /\ List.length df = List.length rows.
Proof.
  intros H.
  destruct (load_ok_inv transformer rows df H)
    as (lat & lon & zone & f & ts & r0 & rows' & st & rel & _ & _ & _ & _ & _
        & _ & _ & _ & Hrows & _).
  split; [exact Hrows |]. rewrite <- Hrows. now rewrite length_map.
Qed.

(** X6.  Every row of an assembled frame carries the conversions of its own
    raw fields: its decimal degrees are [convert_ddmmss_to_dd] of its packed
    latitude and longitude, and its display time is [format_time_string]
    of its packed time. *)
Theorem assembly_rows_converted (rows : list RawReading)
    (df : list EnrichedReading) :
  load_and_prepare_data transformer rows = Ok df ->
  Forall (fun e =>
            convert_ddmmss_to_dd (Latitude (reading e)) = Ok (Latitude_DD e) /\
            convert_ddmmss_to_dd (Longitude (reading e)) = Ok (Longitude_DD e) /\
            format_time_string (Time (reading e)) = Ok (Time_HHMMSS e)) df.
Proof.
  intros H.
  destruct (load_ok_inv transformer rows df H)
    as (lat & lon & zone & f & ts & r0 & rows' & st & rel & Hlat & Hlon & _ & _
        & Hts & _ & _ & _ & Hrows & Clat & Clon & _ & Cts & _).
  apply mapM_forall2 in Hlat, Hlon, Hts.
  rewrite <- Hrows, map_map in Hlat, Hlon, Hts.
  rewrite <- Clat in Hlat. rewrite <- Clon in Hlon. rewrite <- Cts in Hts.
  apply Forall2_maps in Hlat, Hlon, Hts.
  rewrite Forall_forall in *. intros e He. auto.
Qed.

(** X7.  One zone serves the whole frame: it is the zone of the mean of the
    frame's decimal longitudes, the transformer is the one of the code
    ["326"] followed by the zone number, and every row holds this zone and
    the transformer's image of its own longitude and latitude. *)
Theorem assembly_single_zone (rows : list RawReading)
    (df : list EnrichedReading) :
  load_and_prepare_data transformer rows = Ok df ->
  exists zone f,
    utm_zone_of (series_mean (map Longitude_DD df)) = Ok zone /\
    transformer ("326" ++ py_str zone) = Some f /\
    Forall (fun e =>
              UTM_Zone e = zone /\
              (Easting_m e, Northing_m e) = f (Longitude_DD e) (Latitude_DD e))
           df.
Proof.
  intros H.
  destruct (load_ok_inv transformer rows df H)
    as (lat & lon & zone & f & ts & r0 & rows' & st & rel & _ & _ & Hzone & Hf
        & _ & _ & _ & _ & Hrows & Clat & Clon & Cen & _ & _ & Czone).
  exists zone, f. rewrite Clon. split; [exact Hzone |]. split; [exact Hf |].
  rewrite <- Clat, <- Clon, combine_maps, map_map in Cen.
  rewrite <- Hrows, map_map in Czone.
  apply map_eq_Forall in Cen, Czone.
  rewrite Forall_forall in *. intros e He. split; [now apply Czone |].
  now apply Cen.
Qed.

(** X8.  Without rows there is no frame: given no row, the steps after
    the parsing end with [ValueError] (the mean longitude is NaN, which
    [int] refuses) before any transformer is built; so a frame that is
    returned has at least one row. *)
Theorem assembly_empty_input :
  load_and_prepare_data transformer [] = Err ValueError /\
  forall rows df, load_and_prepare_data transformer rows = Ok df ->
                  rows <> [] /\ df <> [].
Proof.
  split; [reflexivity |]. intros rows df H.
  destruct (load_ok_inv transformer rows df H)
    as (lat & lon & zone & f & ts & r0 & rows' & st & rel & _ & _ & _ & _ & _
        & -> & _ & _ & Hrows & _).
  split; [discriminate |]. intros ->. discriminate Hrows.
Qed.

End FrameRows.

Lemma assembly_keeps_rows_witness :
  load_and_prepare_data plate_carree ex_rows = Ok ex_df /\
  map reading ex_df = ex_rows.
Proof.
  assert (H : load_and_prepare_data plate_carree ex_rows = Ok ex_df)
    by (vm_compute; reflexivity).
  split; [exact H |]. exact (proj1 (assembly_keeps_rows plate_carree _ _ H)).
Defined.

Lemma assembly_rows_converted_witness :
  load_and_prepare_data plate_carree ex_rows = Ok ex_df /\
  Forall (fun e =>
            convert_ddmmss_to_dd (Latitude (reading e)) = Ok (Latitude_DD e) /\
            convert_ddmmss_to_dd (Longitude (reading e)) = Ok (Longitude_DD e) /\
            format_time_string (Time (reading e)) = Ok (Time_HHMMSS e)) ex_df.
Proof.
  assert (H : load_and_prepare_data plate_carree ex_rows = Ok ex_df)
    by (vm_compute; reflexivity).
  split; [exact H |]. exact (assembly_rows_converted plate_carree _ _ H).
Defined.

Lemma assembly_single_zone_witness :
  load_and_prepare_data plate_carree ex_rows = Ok ex_df /\
  exists zone f,
    utm_zone_of (series_mean (map Longitude_DD ex_df)) = Ok zone /\
    plate_carree ("326" ++ py_str zone) = Some f /\
    Forall (fun e =>
              UTM_Zone e = zone /\
              (Easting_m e, Northing_m e) = f (Longitude_DD e) (Latitude_DD e))
           ex_df.
Proof.
  assert (H : load_and_prepare_data plate_carree ex_rows = Ok ex_df)
    by (vm_compute; reflexivity).
  split; [exact H |]. exact (assembly_single_zone plate_carree _ _ H).
Defined.

(** ** When the assembly succeeds *)






Section Success.

Variable transformer : string -> option (num -> num -> num * num).


End Success.


(** ** Zones and their codes *)

Lemma epsg_check_all : forallb epsg_check (range 100) = true.
Proof. vm_compute. reflexivity. Qed.

(** X10.  The code asked of [pyproj] is ["326"] followed by the zone number
    as [str] prints it, without padding: five characters for the zones 10
    to 60, but only four for the zones 1 to 9 (["3261"] to ["3269"]). *)
Theorem epsg_code_not_padded (z : Z) :
  1 <= z <= 60 ->
  epsg_code z = "326" ++ py_str z /\
  (z <= 9 -> epsg_code z = String "3" (String "2" (String "6"
                             (String (digit_char z) EmptyString))) /\
             String.length (epsg_code z) = 4%nat) /\
  (10 <= z -> epsg_code z = "326" ++ two_digits z /\
              String.length (epsg_code z) = 5%nat).
Proof.
  intros Hz. split; [reflexivity |].
  pose proof epsg_check_all as Hall. rewrite forallb_forall in Hall.
  specialize (Hall z (in_range 100 z ltac:(lia))).
  unfold epsg_check in Hall. apply String.eqb_eq in Hall.
  split; intros H.
  - assert (E : (z <? 10) = true) by (apply Z.ltb_lt; lia).
    rewrite E in Hall. rewrite Hall. split; reflexivity.
  - assert (E : (z <? 10) = false) by (apply Z.ltb_ge; lia).
    rewrite E in Hall. rewrite Hall. split; reflexivity.
Qed.

Lemma epsg_code_not_padded_witness :
  1 <= 1 <= 60 /\ epsg_code 1 = "3261" /\ epsg_code 33 = "32633".
Proof.
  split; [lia |]. split.
  - exact (proj1 (proj1 (proj2 (epsg_code_not_padded 1 ltac:(lia))) ltac:(lia))).
  - exact (proj1 (proj2 (proj2 (epsg_code_not_padded 33 ltac:(lia))) ltac:(lia))).
Defined.

Lemma Qctrunc_nonpos (q : Qc) : (q <= 0)%Qc -> Qctrunc q = Qceiling q.
Proof.
  unfold Qctrunc, Qceiling, Qfloor, Qcle, Qle. destruct q as [[n d] c]. cbn.
  intros H. rewrite <- (Z.opp_involutive n) at 1.
  rewrite Z.quot_opp_l by lia. f_equal. apply Z.quot_div_nonneg; lia.
Qed.

Lemma Qctrunc_mono (p q : Qc) : (p <= q)%Qc -> Qctrunc p <= Qctrunc q.
Proof.
  intros H.
  destruct (Qclt_le_dec p 0) as [Hp | Hp]; destruct (Qclt_le_dec q 0) as [Hq | Hq].
  - rewrite !Qctrunc_nonpos by now apply Qclt_le_weak.
    now apply Qceiling_resp_le.
  - rewrite (Qctrunc_nonpos p) by now apply Qclt_le_weak.
    rewrite (Qctrunc_nonneg q) by exact Hq.
    assert (Qceiling p <= 0).
    { rewrite <- (Qceiling_Z 0). apply Qceiling_resp_le.
      apply Qclt_le_weak in Hp. exact Hp. }
    assert (0 <= Qcfloor q).
    { unfold Qcfloor. rewrite <- (Qfloor_Z 0). apply Qfloor_resp_le. exact Hq. }
    lia.
  - exfalso. apply (Qclt_not_le _ _ Hq). eapply Qcle_trans; eassumption.
  - rewrite !Qctrunc_nonneg by assumption. now apply Qfloor_resp_le.
Qed.

(** X11.  The zone never decreases when the mean longitude grows, and since
    [int] rounds toward zero the zone 1 reaches six degrees below -180:
    every mean longitude in [(-186, -174)] selects zone 1. *)
Theorem utm_zone_monotone (lon1 lon2 : Qc) :
  (lon1 <= lon2)%Qc ->
  exists z1 z2,
    utm_zone_of (Fin lon1) = Ok z1 /\ utm_zone_of (Fin lon2) = Ok z2 /\
    z1 <= z2 /\
    ((Z2Qc (-186) < lon1)%Qc -> (lon1 < Z2Qc (-174))%Qc -> z1 = 1).
Proof.
  intros H. rewrite !utm_zone_of_finite. eexists _, _.
  split; [reflexivity |]. split; [reflexivity |]. split.
  - assert (Hq : ((lon1 + Z2Qc 180) / Z2Qc 6 <= (lon2 + Z2Qc 180) / Z2Qc 6)%Qc).
    { to_Q. unfold Qdiv. apply Qmult_le_compat_r; [lra | discriminate]. }
    apply Qctrunc_mono in Hq. lia.
  - intros Hlo Hhi.
    destruct (Qclt_le_dec lon1 (Z2Qc (-180))) as [Hneg | Hpos].
    + rewrite Qctrunc_nonpos.
      * assert (E : Qceiling ((lon1 + Z2Qc 180) / Z2Qc 6)%Qc = 0); [| lia].
        unfold Qceiling.
        assert (Qfloor (- ((lon1 + Z2Qc 180) / Z2Qc 6)%Qc) = 0); [| lia].
        apply Qfloor_unique; to_Q; change (inject_Z (-186)) with (-186)%Q in *;
          change (inject_Z (-180)) with (-180)%Q in *;
          change (inject_Z 0) with 0%Q; change (inject_Z (0 + 1)) with 1%Q.
        -- setoid_replace (- ((lon1 + 180) / 6))%Q with ((- lon1 - 180) / 6)%Q
             by field.
           apply Qle_shift_div_l; lra.
        -- setoid_replace (- ((lon1 + 180) / 6))%Q with ((- lon1 - 180) / 6)%Q
             by field.
           apply Qlt_shift_div_r; lra.
      * to_Q. change (inject_Z (-180)) with (-180)%Q in *.
        apply Qle_shift_div_r; lra.
    + rewrite Qctrunc_nonneg.
      * assert (E : Qcfloor ((lon1 + Z2Qc 180) / Z2Qc 6) = 0); [| lia].
        unfold Qcfloor. apply Qfloor_unique; to_Q;
          change (inject_Z (-174)) with (-174)%Q in *;
          change (inject_Z (-180)) with (-180)%Q in *;
          change (inject_Z 0) with 0%Q; change (inject_Z (0 + 1)) with 1%Q.
        -- apply Qle_shift_div_l; lra.
        -- apply Qlt_shift_div_r; lra.
      * to_Q. change (inject_Z (-180)) with (-180)%Q in *.
        apply Qle_shift_div_l; lra.
Qed.

Lemma utm_zone_monotone_witness :
  (Z2Qc (-183) <= Z2Qc 200)%Qc /\
  exists z1 z2,
    utm_zone_of (Fin (Z2Qc (-183))) = Ok z1 /\
    utm_zone_of (Fin (Z2Qc 200)) = Ok z2 /\ z1 <= z2.
Proof.
  assert (H : (Z2Qc (-183) <= Z2Qc 200)%Qc) by (vm_compute; discriminate).
  split; [exact H |].
  destruct (utm_zone_monotone (Z2Qc (-183)) (Z2Qc 200) H)
    as (z1 & z2 & H1 & H2 & H3 & _).
  exists z1, z2. auto.
Defined.

(** ** Order of the converted coordinates *)



(** ** The tick labels of the chart *)

Lemma every_nth_from_length {A : Type} (step k : nat) (l : list A) :
  (k < step)%nat ->
  List.length (every_nth_from k step l)
  = ((List.length l + step - 1 - k) / step)%nat.
Proof.
  intros Hk. revert k Hk. induction l as [| a l IH]; intros k Hk.
  - cbn. symmetry. apply Nat.div_small. lia.
  - destruct k as [| k]; cbn [every_nth_from List.length].
    + rewrite IH by lia.
      replace (S (List.length l) + step - 1 - 0)%nat
        with (List.length l + 1 * step)%nat by lia.
      rewrite Nat.div_add by lia.
      replace (List.length l + step - 1 - (step - 1))%nat
        with (List.length l) by lia.
      lia.
    + rewrite IH by lia. f_equal. lia.
Qed.

Lemma every_nth_from_map {A B : Type} (f : A -> B) (step k : nat) (l : list A) :
  every_nth_from k step (map f l) = map f (every_nth_from k step l).
Proof.
  revert k. induction l as [| a l IH]; intros k; [reflexivity |].
  destruct k; cbn; now rewrite IH.
Qed.

Lemma map_nth_seq {A : Type} (d : A) (l : list A) :
  l = map (fun i => nth i l d) (seq 0 (List.length l)).
Proof.
  induction l as [| a l IH]; [reflexivity |].
  cbn [List.length seq map nth]. f_equal.
  rewrite <- seq_shift, map_map. exact IH.
Qed.

Lemma tick_count_bound (n : nat) :
  ((n + Nat.max 1 (n / 15) - 1) / Nat.max 1 (n / 15) <= 29)%nat.
Proof.
  pose proof (Nat.div_mod_eq n 15) as E.
  pose proof (Nat.mod_upper_bound n 15 ltac:(lia)) as B.
  apply Nat.Div0.div_le_upper_bound. 
  destruct (Nat.max_spec 1 (n / 15)) as [[H ->] | [H ->]]; lia.
Qed.

Section Chart.

Variable cmap : num -> rgba.

(** What a successful run of [draw_plots] has computed. *)
Lemma draw_plots_ok_inv (df df' : list EnrichedReading) (chart : Chart) :
  draw_plots cmap df = Ok (df', chart) ->
  df' = map (set_measurements to_numeric) df /\
  exists co2 colors zone,
    co2_column df' = Ok co2 /\
    mapM (chart_color cmap (series_min co2) (series_max co2)) co2 = Ok colors /\
    iloc0 (map UTM_Zone df') = Ok zone /\
    chart = mk_chart
              (stride (Nat.max 1 (List.length df' / 15))
                      (seq 0 (List.length df')))
              (stride (Nat.max 1 (List.length df' / 15))
                      (map Time_HHMMSS df'))
              (map (fun e => (Easting_m e, Northing_m e)) df')
              colors zone.
Proof.
  unfold draw_plots. intros H.
  bind_inv H co2 Hco2. bind_inv H colors Hcol. bind_inv H zone Hzone.
  match type of H with
  | Ok (?a, ?b) = _ =>
      assert (Ea : a = df') by congruence;
      assert (Eb : b = chart) by congruence
  end.
  clear H. subst df'. split; [reflexivity |].
  exists co2, colors, zone. auto.
Qed.

(** X13.  The x axis gets one tick for every [step]-th row, beginning with
    the first, where [step = max(1, n // 15)]: there are never more than 29
    ticks (29 rows give 29), each tick is a row index, and the label of a
    tick is the display time of its row. *)
Theorem chart_ticks (df df' : list EnrichedReading) (chart : Chart) :
  draw_plots cmap df = Ok (df', chart) ->
  (List.length (xticks chart) <= 29)%nat /\
  hd_error (xticks chart) = Some 0%nat /\
  Forall (fun i => (i < List.length df)%nat) (xticks chart) /\
  xticklabels chart
  = map (fun i => nth i (map Time_HHMMSS df) EmptyString) (xticks chart) /\
  List.length (stride (Nat.max 1 (29 / 15)) (seq 0 29)) = 29%nat.
Proof.
  intros H.
  destruct (draw_plots_ok_inv df df' chart H)
    as (-> & co2 & colors & zone & _ & _ & Hzone & ->).
  cbn [xticks xticklabels]. rewrite !length_map.
  set (n := List.length df). set (step := Nat.max 1 (n / 15)).
  assert (Hstep : (0 < step)%nat) by (unfold step; lia).
  split; [| split; [| split; [| split]]].
  - unfold stride. rewrite every_nth_from_length, length_seq by exact Hstep.
    replace (n + step - 1 - 0)%nat with (n + step - 1)%nat by lia.
    apply tick_count_bound.
  - subst n. destruct df as [| e df]; [discriminate Hzone |]. reflexivity.
  - apply Forall_forall. intros i Hi.
    assert (Hsub : forall k (l : list nat) x,
              In x (every_nth_from k step l) -> In x l).
    { intros k l. revert k. induction l as [| a l IH]; intros k x Hx;
        [destruct Hx |].
      destruct k; cbn in Hx.
      - destruct Hx as [-> | Hx]; [now left | right; eauto].
      - right; eauto. }
    apply Hsub in Hi. apply in_seq in Hi. lia.
  - assert (E : map Time_HHMMSS (map (set_measurements to_numeric) df)
                = map Time_HHMMSS df).
    { rewrite map_map. reflexivity. }
    rewrite E. unfold stride.
    rewrite (map_nth_seq EmptyString (map Time_HHMMSS df)) at 1.
    rewrite every_nth_from_map, length_map. reflexivity.
  - reflexivity.
Qed.

End Chart.

Lemma chart_ticks_witness :
  draw_plots ramp3 ex_df = Ok (fst ex_drawn, snd ex_drawn) /\
  (List.length (xticks (snd ex_drawn)) <= 29)%nat /\
  hd_error (xticks (snd ex_drawn)) = Some 0%nat.
Proof.
  assert (Hd : draw_plots ramp3 ex_df = Ok (fst ex_drawn, snd ex_drawn))
    by (vm_compute; reflexivity).
  split; [exact Hd |].
  destruct (chart_ticks ramp3 _ _ _ Hd) as (H1 & H2 & _).
  split; [exact H1 | exact H2].
Defined.

(** ** Minimum and maximum of a column *)

Lemma num_ltb_fin (a b : Qc) : num_ltb (Fin a) (Fin b) = true <-> (a < b)%Qc.
Proof.
  cbn. rewrite Qclt_alt. destruct (a ?= b)%Qc; split; congruence.
Qed.

Lemma num_ltb_fin_false (a b : Qc) :
  num_ltb (Fin a) (Fin b) = false <-> (b <= a)%Qc.
Proof.
  split; intros H.
  - apply Qcnot_lt_le. intros Hlt. apply num_ltb_fin in Hlt. congruence.
  - apply not_true_is_false. intros Hlt. apply num_ltb_fin in Hlt.
    now apply (Qcle_not_lt _ _ H).
Qed.

(** On numbers other than NaN, [x >= y] and [y > z] give [x >= z]. *)
Lemma num_ge_gt_trans (x y z : num) :
  is_nan x = false -> is_nan y = false -> is_nan z = false ->
  num_ltb x y = false -> num_ltb z y = true -> num_ltb x z = false.
Proof.
  destruct x as [a | | |], y as [b | | |], z as [c | | |];
    try discriminate; try reflexivity; intros _ _ _ H1 H2.
  apply num_ltb_fin_false in H1. apply num_ltb_fin in H2.
  apply num_ltb_fin_false. apply Qclt_le_weak.
  eapply Qclt_le_trans; eassumption.
Qed.

(** On numbers other than NaN, [x >= y] and [y >= z] give [x >= z]. *)
Lemma num_ge_trans (x y z : num) :
  is_nan x = false -> is_nan y = false -> is_nan z = false ->
  num_ltb x y = false -> num_ltb y z = false -> num_ltb x z = false.
Proof.
  destruct x as [a | | |], y as [b | | |], z as [c | | |];
    try discriminate; try reflexivity; intros _ _ _ H1 H2.
  apply num_ltb_fin_false in H1, H2. apply num_ltb_fin_false.
  eapply Qcle_trans; eassumption.
Qed.

Lemma num_ltb_true_ge (x y : num) : num_ltb x y = true -> num_ltb y x = false.
Proof.
  destruct x as [a | | |], y as [b | | |]; try discriminate; try reflexivity.
  intros H. apply num_ltb_fin in H. apply num_ltb_fin_false.
  now apply Qclt_le_weak.
Qed.

Lemma dropna_not_nan (l : list num) : Forall (fun x => is_nan x = false) (dropna l).
Proof.
  unfold dropna. apply Forall_forall. intros x Hx.
  apply filter_In in Hx as [_ Hx]. now apply negb_true_iff in Hx.
Qed.

Lemma fold_max_spec (xs : list num) (x : num) :
  Forall (fun y => is_nan y = false) (x :: xs) ->
  let M := fold_left (fun m y => if num_ltb m y then y else m) xs x in
  In M (x :: xs) /\ forall y, In y (x :: xs) -> num_ltb M y = false.
Proof.
  revert x. induction xs as [| y xs IH]; intros x Hn; cbn [fold_left].
  - split; [now left |]. intros y [<- | []]. apply num_ltb_irrefl.
  - inversion Hn as [| ? ? Hx Hn']. inversion Hn' as [| ? ? Hy Hxs]. subst.
    set (x' := if num_ltb x y then y else x).
    assert (Hx' : is_nan x' = false) by (unfold x'; destruct (num_ltb x y); assumption).
    destruct (IH x' (Forall_cons _ Hx' Hxs)) as (Hin & Hge).
    set (M := fold_left _ xs x') in *.
    assert (HM : is_nan M = false).
    { assert (HF : Forall (fun y => is_nan y = false) (x' :: xs))
        by now constructor.
      rewrite Forall_forall in HF. now apply HF. }
    split.
    + destruct Hin as [Hin | Hin]; [| now right; right].
      unfold x' in Hin. destruct (num_ltb x y); rewrite <- Hin; cbn; auto.
    + pose proof (Hge x' (or_introl eq_refl)) as Hgx'.
      intros z [<- | [<- | Hz]].
      * unfold x' in Hgx'. destruct (num_ltb x y) eqn:E; [| exact Hgx'].
        now apply (num_ge_gt_trans M y x).
      * unfold x' in Hgx'. destruct (num_ltb x y) eqn:E; [exact Hgx' |].
        now apply (num_ge_trans M x y).
      * apply Hge. now right.
Qed.

Lemma fold_min_in (xs : list num) (x : num) :
  In (fold_left (fun m y => if num_ltb y m then y else m) xs x) (x :: xs).
Proof.
  revert x. induction xs as [| y xs IH]; intros x; cbn [fold_left];
    [now left |].
  destruct (IH (if num_ltb y x then y else x)) as [H | H]; [| now right; right].
  rewrite <- H. destruct (num_ltb y x); cbn; auto.
Qed.

(** The maximum of a column is never below its minimum. *)
Lemma series_min_le_max (l : list num) :
  num_ltb (series_max l) (series_min l) = false.
Proof.
  unfold series_max, series_min. pose proof (dropna_not_nan l) as Hn.
  destruct (dropna l) as [| x xs]; [reflexivity |].
  destruct (fold_max_spec xs x Hn) as (_ & Hge).
  apply Hge. apply fold_min_in.
Qed.

Lemma Normalize_min_max (l : list num) (v : num) :
  exists t, Normalize (series_min l) (series_max l) v = Ok t.
Proof.
  unfold Normalize. destruct (is_nan v); [eauto |].
  destruct (num_eqb _ _); [eauto |].
  rewrite series_min_le_max. eauto.
Qed.

(** ** The coerced frame *)

Lemma to_numeric_is_num (c : cell) : is_num (to_numeric c) = true.
Proof. destruct c; reflexivity. Qed.

Lemma to_numeric_idempotent (c : cell) : to_numeric (to_numeric c) = to_numeric c.
Proof. destruct c; reflexivity. Qed.

Lemma set_measurements_idempotent (e : EnrichedReading) :
  set_measurements to_numeric (set_measurements to_numeric e)
  = set_measurements to_numeric e.
Proof.
  unfold set_measurements. cbn. now rewrite !to_numeric_idempotent.
Qed.

Lemma co2_column_numeric (df : list EnrichedReading) :
  Forall (fun e => is_num (CO2 (reading e)) = true) df ->
  exists co2, co2_column df = Ok co2.
Proof.
  intros H. unfold co2_column. apply mapM_all_ok. intros e He.
  rewrite Forall_forall in H. specialize (H e He).
  destruct (CO2 (reading e)) as [x | s]; [| discriminate].
  exists x. reflexivity.
Qed.

Lemma coerced_numeric (df : list EnrichedReading) :
  Forall (fun e => is_num (CO2 (reading e)) = true)
         (map (set_measurements to_numeric) df).
Proof.
  apply Forall_forall. intros e He. apply in_map_iff in He as (e0 & <- & _).
  apply to_numeric_is_num.
Qed.

Section ChartTotal.

Variable cmap : num -> rgba.

Lemma draw_plots_nonempty (df : list EnrichedReading) :
  df <> [] ->
  exists df' chart,
    draw_plots cmap df = Ok (df', chart) /\
    List.length (scatter_colors chart) = List.length df /\
    scatter_xy chart = map (fun e => (Easting_m e, Northing_m e)) df.
Proof.
  intros Hne. unfold draw_plots.
  destruct (co2_column_numeric _ (coerced_numeric df)) as (co2 & Hco2).
  rewrite Hco2. cbn [bind].
  destruct (mapM_all_ok (chart_color cmap (series_min co2) (series_max co2)) co2)
    as (colors & Hcol).
  { intros v _. unfold chart_color.
    destruct (Normalize_min_max co2 v) as (t & ->). cbn. eauto. }
  rewrite Hcol. cbn [bind].
  destruct df as [| e df]; [congruence |]. cbn [map iloc0 bind].
  eexists _, _. split; [reflexivity |]. cbn [scatter_colors scatter_xy].
  split.
  - apply mapM_length in Hcol. apply mapM_length in Hco2.
    rewrite Hcol, Hco2. cbn [map List.length]. now rewrite length_map.
  - cbn [map]. f_equal. rewrite map_map. reflexivity.
Qed.

(** X14.  On a frame with at least one row the data steps of [draw_plots]
    raise nothing, whatever the measurement cells hold: after the coercion
    the CO2 column is numeric, the bounds given to [plt.Normalize] are
    never in the wrong order, and the zone of the first row exists.  The
    scatter plot has one point and one colour per row. *)
Theorem draw_plots_total (df : list EnrichedReading) :
  df <> [] ->
  exists df' chart,
    draw_plots cmap df = Ok (df', chart) /\
    List.length (scatter_colors chart) = List.length df /\
    scatter_xy chart = map (fun e => (Easting_m e, Northing_m e)) df.
Proof.
  intros Hne.
  destruct (draw_plots_nonempty df Hne) as (df' & chart & H1 & H2 & H3).
  exists df', chart. split; [exact H1 |]. split; [exact H2 | exact H3].
Qed.

(** X15.  Drawing a second time changes nothing: on the frame that
    [draw_plots] has returned, [draw_plots] returns the same frame and the
    same chart. *)
Theorem draw_plots_idempotent (df df' : list EnrichedReading) (chart : Chart) :
  draw_plots cmap df = Ok (df', chart) ->
  draw_plots cmap df' = Ok (df', chart).
Proof.
  intros H.
  assert (E : map (set_measurements to_numeric) df' = df').
  { destruct (draw_plots_ok_inv cmap df df' chart H) as (-> & _).
    rewrite map_map. apply map_ext. intros e.
    apply set_measurements_idempotent. }
  destruct (draw_plots_ok_inv cmap df df' chart H) as (Edf & _).
  unfold draw_plots in *. rewrite E. rewrite <- Edf in H. exact H.
Qed.

End ChartTotal.

Lemma draw_plots_total_witness :
  ex_df <> [] /\
  exists df' chart,
    draw_plots ramp3 ex_df = Ok (df', chart) /\
    List.length (scatter_colors chart) = List.length ex_df.
Proof.
  assert (H : ex_df <> []) by (vm_compute; discriminate).
  split; [exact H |].
  destruct (draw_plots_total ramp3 ex_df H) as (df' & chart & H1 & H2 & _).
  exists df', chart. auto.
Defined.

Lemma draw_plots_idempotent_witness :
  draw_plots ramp3 ex_df = Ok (fst ex_drawn, snd ex_drawn) /\
  draw_plots ramp3 (fst ex_drawn) = Ok (fst ex_drawn, snd ex_drawn).
Proof.
  assert (Hd : draw_plots ramp3 ex_df = Ok (fst ex_drawn, snd ex_drawn))
    by (vm_compute; reflexivity).
  split; [exact Hd |]. exact (draw_plots_idempotent ramp3 _ _ _ Hd).
Defined.

(** ** The KML document *)


Section Document.

Variable cmap : num -> rgba.

Lemma generate_kml_ok_inv (df : list EnrichedReading) (kml : Kml) :
  generate_kml_trajectory cmap df = Ok kml ->
  exists co2 pts,
    co2_column df = Ok co2 /\
    mapM (fun e =>
            co2_val <- cell_num (CO2 (reading e)) ;;
            Ok (mk_placemark co2_val (Longitude_DD e, Latitude_DD e)
                             (Time_HHMMSS e)
                             (get_kml_color cmap (series_min co2)
                                            (series_max co2) co2_val))) df
    = Ok pts /\
    kml = mk_kml (map (fun e => (Longitude_DD e, Latitude_DD e)) df) pts.
Proof.
  unfold generate_kml_trajectory. intros H.
  bind_inv H co2 Hco2. bind_inv H pts Hpts. injection H as <-. eauto.
Qed.


(** X16.  The document has one marker for every row, in row order, and the
    markers lie on the track: the coordinates of the markers are the
    coordinates of the line, which are the decimal longitude and latitude
    of the rows; every marker carries the display time and the CO2 value
    of its row. *)
Theorem kml_markers_follow_rows (df : list EnrichedReading) (kml : Kml) :
  generate_kml_trajectory cmap df = Ok kml ->
  List.length (points kml) = List.length df /\
  linestring_coords kml = map (fun e => (Longitude_DD e, Latitude_DD e)) df /\
  map pnt_coords (points kml) = linestring_coords kml /\
  map pnt_time (points kml) = map Time_HHMMSS df /\
  map (fun p => Num (pnt_co2 p)) (points kml) = map (fun e => CO2 (reading e)) df.
Proof.
  intros H. destruct (generate_kml_ok_inv df kml H) as (co2 & pts & _ & Hpts & ->).
  cbn [points linestring_coords].
  split; [exact (mapM_length _ _ _ Hpts) |]. split; [reflexivity |].
  clear H. apply mapM_forall2 in Hpts.
  induction Hpts as [| e p l l' Hp _ IH]; [repeat split |].
  destruct IH as (I1 & I2 & I3).
  apply bind_ok in Hp as (v & Hv & Hp). injection Hp as <-.
  destruct (CO2 (reading e)) as [x | s] eqn:Ec; [| discriminate].
  injection Hv as <-.
  cbn [map pnt_coords pnt_time pnt_co2]. rewrite I1, I2, I3, Ec. repeat split.
Qed.


End Document.

Lemma kml_markers_follow_rows_witness :
  generate_kml_trajectory ramp3 (fst ex_drawn) = Ok ex_kml /\
  List.length (points ex_kml) = List.length (fst ex_drawn) /\
  map pnt_coords (points ex_kml) = linestring_coords ex_kml.
Proof.
  assert (Hk : generate_kml_trajectory ramp3 (fst ex_drawn) = Ok ex_kml)
    by (vm_compute; reflexivity).
  split; [exact Hk |].
  destruct (kml_markers_follow_rows ramp3 _ _ Hk) as (H1 & _ & H3 & _).
  split; [exact H1 | exact H3].
Defined.

(** ** The file name of the document *)

Lemma substring_prefix (s t : string) :
  substring 0 (String.length s) (s ++ t) = s.
Proof.
  induction s as [| c s IH]; cbn.
  - destruct t; reflexivity.
  - now rewrite IH.
Qed.

(** X18.  The name of the document is the name of the log with its last
    three characters replaced by ["kml"], whatever they are: a name that
    ends in a three-letter extension keeps its stem and its dot, and a name
    of fewer than three characters gives ["kml"] alone. *)
Theorem kml_file_name_replaces_suffix (stem ext : string) :
  String.length ext = 3%nat ->
  kml_file_name (stem ++ ext) = stem ++ "kml" /\
  (forall short, (String.length short < 3)%nat -> kml_file_name short = "kml") /\
  KML_FILE_NAME = "170314_100443_M02.kml".
Proof.
  intros Hext. split; [| split; [| reflexivity]].
  - unfold kml_file_name. rewrite length_app, Hext.
    replace (String.length stem + 3 - 3)%nat with (String.length stem) by lia.
    now rewrite substring_prefix.
  - intros short H. unfold kml_file_name.
    replace (String.length short - 3)%nat with 0%nat by lia.
    destruct short; reflexivity.
Qed.

Lemma kml_file_name_replaces_suffix_witness :
  String.length "txt" = 3%nat /\ kml_file_name ("track." ++ "txt") = "track." ++ "kml".
Proof.
  split; [reflexivity |].
  exact (proj1 (kml_file_name_replaces_suffix "track." "txt" eq_refl)).
Defined.

(** ** The colour scale between its ends *)



Section Scale.

Variable cmap : num -> rgba.


End Scale.


(** ** The bytes of a marker colour *)

Lemma channel_byte (x : Qc) :
  unit_interval x ->
  0 <= Qctrunc (x * Z2Qc 255) <= 255 /\
  (Qctrunc (x * Z2Qc 255) = 255 <-> x = 1%Qc).
Proof.
  intros [H0 H1].
  assert (Hnn : (0 <= x * Z2Qc 255)%Qc).
  { to_Q. change (inject_Z 255) with 255%Q. lra. }
  rewrite (Qctrunc_nonneg _ Hnn). unfold Qcfloor.
  assert (Hv : (this (x * Z2Qc 255)%Qc == this x * 255)%Q).
  { rewrite this_mult, this_Z2Qc. reflexivity. }
  assert (H255 : Qfloor (this (1 * Z2Qc 255)%Qc) = 255) by reflexivity.
  unfold Qcle in H0, H1, Hnn. change (this (Q2Qc 0)) with 0%Q in H0, Hnn.
  change (this (Q2Qc 1)) with 1%Q in H1.
  set (X := this (x * Z2Qc 255)%Qc) in *.
  pose proof (Qfloor_le X) as Hfl. pose proof (Qlt_floor X) as Hfu.
  assert (Hz0 : 0 <= Qfloor X).
  { rewrite <- (Qfloor_Z 0). apply Qfloor_resp_le. exact Hnn. }
  assert (Hz255 : Qfloor X <= 255).
  { rewrite Zle_Qle. change (inject_Z 255) with 255%Q. lra. }
  split; [lia |]. split.
  - intros E. apply Qc_is_canon. change (this (Q2Qc 1)) with 1%Q.
    rewrite E in Hfl. change (inject_Z 255) with 255%Q in Hfl. lra.
  - intros ->. exact H255.
Qed.

(** X20.  For a colour whose four channels lie between 0 and 1, the marker
    colour has four bytes between 0 and 255; since [int] cuts the fraction
    off, a byte is 255 only for a channel that is exactly 1. *)
Theorem marker_color_bytes (r g b a : Qc) :
  unit_interval r -> unit_interval g -> unit_interval b -> unit_interval a ->
  exists R G B A,
    to_kml_color (r, g, b, a) = Color_rgb R G B A /\
    0 <= R <= 255 /\ 0 <= G <= 255 /\ 0 <= B <= 255 /\ 0 <= A <= 255 /\
    (R = 255 <-> r = 1%Qc) /\ (G = 255 <-> g = 1%Qc) /\
    (B = 255 <-> b = 1%Qc) /\ (A = 255 <-> a = 1%Qc).
Proof.
  intros Hr Hg Hb Ha.
  destruct (channel_byte r Hr) as (R1 & R2).
  destruct (channel_byte g Hg) as (G1 & G2).
  destruct (channel_byte b Hb) as (B1 & B2).
  destruct (channel_byte a Ha) as (A1 & A2).
  eexists _, _, _, _. split; [reflexivity |]. tauto.
Qed.

Lemma marker_color_bytes_witness :
  let half := Q2Qc 0.5 in
  unit_interval half /\ unit_interval 1%Qc /\
  exists R G B A,
    to_kml_color (half, 1%Qc, half, 1%Qc) = Color_rgb R G B A /\
    0 <= R <= 255 /\ 0 <= G <= 255 /\ 0 <= B <= 255 /\ 0 <= A <= 255.
Proof.
  intros half.
  assert (Hh : unit_interval half) by (split; vm_compute; discriminate).
  assert (H1 : unit_interval 1%Qc) by (split; vm_compute; discriminate).
  split; [exact Hh | split; [exact H1 |]].
  destruct (marker_color_bytes half 1%Qc half 1%Qc Hh H1 Hh H1)
    as (R & G & B & A & E & HR & HG & HB & HA & _).
  exists R, G, B, A. auto.
Defined.

(** ** The main program *)

Section Main.

Variable transformer : string -> option (num -> num -> num * num).
Variable cmap : num -> rgba.


End Main.

(** ** Agreement of the two outputs *)


Section Agreement.

Variable cmap : num -> rgba.



End Agreement.

